(** * Protonect (two-Kinect sample): a shallow embedding of
      [examples/Protonect.cpp] and the properties of its capture session.

    The program is modelled by explicit state passing.  The process-wide
    variables of the file live in the record [Globals]; the two device
    objects handed out by the driver live in [Devices]; every call into a
    collaborator (driver, listener, registration, viewer, console) is
    recorded, in program order, in a trace of [Event]s.  Results that the
    program cannot predict (does a frame arrive, does the viewer ask to
    close, does the hardware start, does a signal land in between two
    accesses of a flag) are inputs of the model.

    The head of [main] (lines 125-157: usage banner, logger set-up) only
    writes to the console and is left out; the two worker threads are
    modelled one at a time by [running], each against the stores the other
    contexts make to the shared flag. *)

From Stdlib Require Import ZArith List String Ascii Bool Lia DecimalString.
Import ListNotations.
Open Scope string_scope.
Open Scope Z_scope.

(** ** Machine integers *)

(** [size_t] and [long] of an LP64 target. *)
Definition SIZE_MAX : Z := 2 ^ 64 - 1.
Definition LONG_MAX : Z := 2 ^ 63 - 1.
Definition LONG_MIN : Z := - 2 ^ 63.
Definition INT_WRAP : Z := 2 ^ 32.

(** Conversion of a signed value to [size_t]: reduction modulo 2^64. *)
Definition to_size_t (z : Z) : Z := z mod (SIZE_MAX + 1).

(** Conversion of a [long] to [int]: wrap-around into [-2^31, 2^31). *)
Definition to_int (z : Z) : Z := (z + 2 ^ 31) mod INT_WRAP - 2 ^ 31.

(** ** The C library's text-to-integer conversions *)

Module CLib.

Definition isspace (c : ascii) : bool :=
  let n := Z.of_nat (nat_of_ascii c) in
  (n =? 32) || ((9 <=? n) && (n <=? 13)).

(** Value of a character as a digit, in any base up to 36. *)
Definition digit_val (c : ascii) : option Z :=
  let n := Z.of_nat (nat_of_ascii c) in
  if (48 <=? n) && (n <=? 57) then Some (n - 48)
  else if (97 <=? n) && (n <=? 122) then Some (n - 97 + 10)
  else if (65 <=? n) && (n <=? 90) then Some (n - 65 + 10)
  else None.

Definition digit_in (base : Z) (c : ascii) : option Z :=
  match digit_val c with
  | Some d => if d <? base then Some d else None
  | None => None
  end.

Definition is_digit_in (base : Z) (c : ascii) : bool :=
  match digit_in base c with Some _ => true | None => false end.

Fixpoint skip_space (s : string) : string :=
  match s with
  | String c rest => if isspace c then skip_space rest else s
  | EmptyString => s
  end.

(** The longest run of digits of [base] at the head of [s], as a number. *)
Fixpoint read_digits (base : Z) (s : string) (acc : Z) : Z :=
  match s with
  | String c rest =>
      match digit_in base c with
      | Some d => read_digits base rest (acc * base + d)
      | None => acc
      end
  | EmptyString => acc
  end.

Definition clamp_long (z : Z) : Z :=
  if z <? LONG_MIN then LONG_MIN
  else if LONG_MAX <? z then LONG_MAX
  else z.

Definition is_x (c : ascii) : bool :=
  let n := Z.of_nat (nat_of_ascii c) in (n =? 120) || (n =? 88).

(** Base detection of [strtol] for base 0 and the optional [0x] of base 16:
    the prefix counts only when a hexadecimal digit follows it. *)
Definition pick_base (base : Z) (s : string) : Z * string :=
  match s with
  | String "0" (String x (String h rest)) =>
      if is_x x && is_digit_in 16 h && ((base =? 0) || (base =? 16))
      then (16, String h rest)
      else if base =? 0 then (8, s) else (base, s)
  | String "0" _ => if base =? 0 then (8, s) else (base, s)
  | _ => if base =? 0 then (10, s) else (base, s)
  end.

(** [strtol(s, NULL, base)]: leading white space, an optional sign, the
    digits of the base; 0 when there is no digit; saturation at the ends of
    [long]. *)
Definition strtol (s : string) (base : Z) : Z :=
  let s1 := skip_space s in
  let '(neg, s2) :=
    match s1 with
    | String "-" r => (true, r)
    | String "+" r => (false, r)
    | _ => (false, s1)
    end in
  let '(b, s3) := pick_base base s2 in
  let mag := read_digits b s3 0 in
  clamp_long (if neg then - mag else mag).

(** [atoi(s)], which is [(int) strtol(s, NULL, 10)]. *)
Definition atoi (s : string) : Z := to_int (strtol s 10).

End CLib.

(** ** [std::string] operations used by the argument loop *)

(** [arg.find(p) == 0]. *)
Fixpoint starts_with (p s : string) : bool :=
  match p, s with
  | EmptyString, _ => true
  | String a p', String b s' => Ascii.eqb a b && starts_with p' s'
  | String _ _, EmptyString => false
  end.

(** [arg.find_first_not_of("0123456789") == std::string::npos]. *)
Fixpoint all_decimal (s : string) : bool :=
  match s with
  | EmptyString => true
  | String c rest =>
      let n := Z.of_nat (nat_of_ascii c) in
      (48 <=? n) && (n <=? 57) && all_decimal rest
  end.

(** [argv[argI] + 5]: the text after the first five characters. *)
Fixpoint drop_chars (n : nat) (s : string) : string :=
  match n, s with
  | O, _ => s
  | S n', String _ rest => drop_chars n' rest
  | S _, EmptyString => EmptyString
  end.

(** ** Data model *)

(** Compile-time switches of the file.  The two OpenCL branches of the
    argument loop name a variable [pipeline] that is declared nowhere, so
    the file only builds with [LIBFREENECT2_WITH_OPENCL_SUPPORT] undefined:
    that switch is fixed to "off" and has no field here. *)
Record Build := mkBuild {
  LIBFREENECT2_WITH_OPENGL_SUPPORT : bool;
  LIBFREENECT2_WITH_CUDA_SUPPORT : bool;
  EXAMPLES_WITH_OPENGL_SUPPORT : bool;
  HAVE_SIGUSR1 : bool
}.

(** The packet pipelines that the argument loop can construct. *)
Inductive PacketPipeline :=
| CpuPacketPipeline
| OpenGLPacketPipeline
| CudaPacketPipeline (deviceId : Z)
| CudaKdePacketPipeline (deviceId : Z).

(** A [Freenect2Device *] that is not null names one of the two device
    objects of the session, in the order [openDevice] created them. *)
Inductive DevPtr := DevA | DevB.

(** Modelled from the spec: the device object (libfreenect2's
    [Freenect2Device]) is an external collaborator and is not under src/.
    The spec gives it three observable conditions: opened and not
    streaming, streaming a selection of {color, depth}, and closed. *)
Inductive DevState :=
| Opened
| Streaming (rgb depth : bool)
| Closed.

(** The driver's store of device objects; [None] where no object exists. *)
Record Devices := mkDevices {
  objA : option DevState;
  objB : option DevState
}.

Definition dev_get (h : Devices) (p : DevPtr) : option DevState :=
  match p with DevA => objA h | DevB => objB h end.

Definition dev_set (h : Devices) (p : DevPtr) (s : DevState) : Devices :=
  match p with
  | DevA => mkDevices (Some s) (objB h)
  | DevB => mkDevices (objA h) (Some s)
  end.

(** The variables of the file that outlive a call: lines 45-61. *)
Record Globals := mkGlobals {
  protonect_shutdown : bool;
  viewer_enabled : bool;
  enable_rgb : bool;
  enable_depth : bool;
  framemax : Z;
  protonect_paused : bool;
  devtopause_1 : option DevPtr;
  devtopause_2 : option DevPtr
}.

(** Their initial values; [framemax] starts as [(size_t)-1]. *)
Definition initial_globals : Globals :=
  mkGlobals false true true true (to_size_t (-1)) false None None.

Definition set_protonect_shutdown (v : bool) (g : Globals) : Globals :=
  mkGlobals v (viewer_enabled g) (enable_rgb g) (enable_depth g) (framemax g)
            (protonect_paused g) (devtopause_1 g) (devtopause_2 g).
Definition set_viewer_enabled (v : bool) (g : Globals) : Globals :=
  mkGlobals (protonect_shutdown g) v (enable_rgb g) (enable_depth g)
            (framemax g) (protonect_paused g) (devtopause_1 g) (devtopause_2 g).
Definition set_enable_rgb (v : bool) (g : Globals) : Globals :=
  mkGlobals (protonect_shutdown g) (viewer_enabled g) v (enable_depth g)
            (framemax g) (protonect_paused g) (devtopause_1 g) (devtopause_2 g).
Definition set_enable_depth (v : bool) (g : Globals) : Globals :=
  mkGlobals (protonect_shutdown g) (viewer_enabled g) (enable_rgb g) v
            (framemax g) (protonect_paused g) (devtopause_1 g) (devtopause_2 g).
Definition set_framemax (v : Z) (g : Globals) : Globals :=
  mkGlobals (protonect_shutdown g) (viewer_enabled g) (enable_rgb g)
            (enable_depth g) v (protonect_paused g) (devtopause_1 g)
            (devtopause_2 g).
Definition set_protonect_paused (v : bool) (g : Globals) : Globals :=
  mkGlobals (protonect_shutdown g) (viewer_enabled g) (enable_rgb g)
            (enable_depth g) (framemax g) v (devtopause_1 g) (devtopause_2 g).
Definition set_devtopause (p1 p2 : option DevPtr) (g : Globals) : Globals :=
  mkGlobals (protonect_shutdown g) (viewer_enabled g) (enable_rgb g)
            (enable_depth g) (framemax g) (protonect_paused g) p1 p2.

(** Signals the program installs a handler for. *)
Inductive Signal := SIGINT | SIGUSR1.

(** One call into a collaborator, as the trace records it. *)
Inductive Event :=
| Cout (msg : string)
| Cerr (msg : string)
| EnumerateDevices
| GetDeviceSerialNumber (idx : nat)
| OpenDevice (serial : string) (pipeline : option PacketPipeline)
             (result : option DevPtr)
| InstallHandler (s : Signal)
| DevStart (p : DevPtr)
| DevStartStreams (p : DevPtr) (rgb depth : bool)
| DevStop (p : DevPtr)
| DevClose (p : DevPtr)
| NewListener (p : DevPtr) (types : Z)
| SetColorFrameListener (p : DevPtr)
| SetIrAndDepthFrameListener (p : DevPtr)
| NewRegistration (p : DevPtr)
| DeleteRegistration (p : DevPtr)
| ViewerInitialize (p : DevPtr)
| CoutSerialNumber (p : DevPtr)
| CoutFirmwareVersion (p : DevPtr)
| WaitForNewFrame (p : DevPtr) (timeout_ms : Z) (got : bool)
| RegistrationApply (p : DevPtr)
| ViewerAddFrame (p : DevPtr) (name : string)
| ViewerRender (p : DevPtr) (close : bool)
| ListenerRelease (p : DevPtr).

(** ** The device collaborator *)

(** Modelled from the spec: [start], [startStreams], [stop] and [close] of
    the device object, which is not under src/.  A start takes an opened
    device to streaming the requested selection and reports failure
    otherwise, or when the hardware refuses ([hw = false]); a stop takes a
    streaming device back to opened; a close ends the object's life. *)
Definition dev_startStreams (hw rgb depth : bool) (p : DevPtr) (h : Devices)
  : Devices * bool :=
  match dev_get h p with
  | Some Opened => if hw then (dev_set h p (Streaming rgb depth), true)
                   else (h, false)
  | _ => (h, false)
  end.

Definition dev_start (hw : bool) (p : DevPtr) (h : Devices) : Devices * bool :=
  dev_startStreams hw true true p h.

Definition dev_stop (p : DevPtr) (h : Devices) : Devices * bool :=
  match dev_get h p with
  | Some (Streaming _ _) => (dev_set h p Opened, true)
  | _ => (h, false)
  end.

Definition dev_close (p : DevPtr) (h : Devices) : Devices * bool :=
  match dev_get h p with
  | Some Opened | Some (Streaming _ _) => (dev_set h p Closed, true)
  | _ => (h, false)
  end.

(** Modelled from the spec: the driver context ([libfreenect2::Freenect2]),
    not under src/: the serial numbers of the connected devices in
    enumeration order, and which serials can be opened. *)
Record Freenect2 := mkFreenect2 {
  connected : list string;
  can_open : string -> bool
}.

Definition enumerateDevices (f : Freenect2) : Z :=
  Z.of_nat (List.length (connected f)).

Definition getDeviceSerialNumber (f : Freenect2) (idx : nat) : string :=
  nth idx (connected f) "".

(** ** [main]: the argument loop (lines 175-263) *)

(** The locals of [main] that the argument loop and the open step use. *)
Record Locals := mkLocals {
  pipeline_1 : option PacketPipeline;
  pipeline_2 : option PacketPipeline;
  serial_1 : string;
  serial_2 : string;
  deviceId : Z
}.

Definition initial_locals : Locals := mkLocals None None "" "" (-1).

Definition set_pipelines (p : PacketPipeline) (l : Locals) : Locals :=
  mkLocals (Some p) (Some p) (serial_1 l) (serial_2 l) (deviceId l).
Definition set_deviceId (d : Z) (l : Locals) : Locals :=
  mkLocals (pipeline_1 l) (pipeline_2 l) (serial_1 l) (serial_2 l) d.
Definition set_serials (s1 s2 : string) (l : Locals) : Locals :=
  mkLocals (pipeline_1 l) (pipeline_2 l) s1 s2 (deviceId l).

Definition non_null {A : Type} (p : option A) : bool :=
  match p with Some _ => true | None => false end.

(** [if (!pipeline_1 || !pipeline_2) { pipeline_1 = new P; pipeline_2 = new P; }] *)
Definition select_pipeline (p : PacketPipeline) (l : Locals) : Locals :=
  if negb (non_null (pipeline_1 l)) || negb (non_null (pipeline_2 l))
  then set_pipelines p l else l.

(** How one pass through the body of the [for] loop ends. *)
Inductive Flow :=
| Next (argI : nat)        (** reaches [++argI] with this value of [argI] *)
| Return (code : Z)        (** [return code;] out of [main] *)
| NullArgument.            (** [strtol] is handed [argv[argc]], a null pointer *)

Definition streq : string -> string -> bool := String.eqb.

(** The body of the loop for the token [arg = argv[argI]]. *)
Definition arg_body (b : Build) (argv : list string) (argI : nat)
  (arg : string) (g : Globals) (l : Locals)
  : Flow * Globals * Locals * list Event :=
  if streq arg "-help" || streq arg "--help" || streq arg "-h"
     || streq arg "-v" || streq arg "--version" || streq arg "-version"
  then (Return 0, g, l, [])
  else if starts_with "-gpu=" arg then
    if non_null (pipeline_1 l) || non_null (pipeline_2 l)
    then (Return (-1), g, l,
          [Cerr "-gpu must be specified before pipeline argument"])
    else (Next argI, g, set_deviceId (CLib.atoi (drop_chars 5 arg)) l, [])
  else if streq arg "cpu" then
    (Next argI, g, select_pipeline CpuPacketPipeline l, [])
  else if streq arg "gl" then
    if LIBFREENECT2_WITH_OPENGL_SUPPORT b
    then (Next argI, g, select_pipeline OpenGLPacketPipeline l, [])
    else (Next argI, g, l, [Cout "OpenGL pipeline is not supported!"])
  else if streq arg "cl" then
    (Next argI, g, l, [Cout "OpenCL pipeline is not supported!"])
  else if streq arg "clkde" then
    (Next argI, g, l, [Cout "OpenCL pipeline is not supported!"])
  else if streq arg "cuda" then
    if LIBFREENECT2_WITH_CUDA_SUPPORT b
    then (Next argI, g, select_pipeline (CudaPacketPipeline (deviceId l)) l, [])
    else (Next argI, g, l, [Cout "CUDA pipeline is not supported!"])
  else if streq arg "cudakde" then
    if LIBFREENECT2_WITH_CUDA_SUPPORT b
    then (Next argI, g,
          select_pipeline (CudaKdePacketPipeline (deviceId l)) l, [])
    else (Next argI, g, l, [Cout "CUDA pipeline is not supported!"])
  else if all_decimal arg then (Next argI, g, l, [])
  else if streq arg "-noviewer" || streq arg "--noviewer" then
    (Next argI, set_viewer_enabled false g, l, [])
  else if streq arg "-norgb" || streq arg "--norgb" then
    (Next argI, set_enable_rgb false g, l, [])
  else if streq arg "-nodepth" || streq arg "--nodepth" then
    (Next argI, set_enable_depth false g, l, [])
  else if streq arg "-frames" then
    let argI := S argI in
    match nth_error argv argI with
    | None => (NullArgument, g, l, [])
    | Some v =>
        let g := set_framemax (to_size_t (CLib.strtol v 0)) g in
        if framemax g <=? 0
        then (Return (-1), g, l,
              [Cerr ("invalid frame count '" ++ v ++ "'")])
        else (Next argI, g, l, [])
    end
  else (Next argI, g, l, [Cout ("Unknown argument: " ++ arg)]).

(** How the whole loop ends. *)
Inductive ArgOutcome :=
| ArgsDone                 (** [argI < argc] became false *)
| ArgsReturn (code : Z)
| ArgsNullArgument
| ArgsFuel.                (** the model's step budget ran out *)

(** [for (int argI = 1; argI < argc; ++argI) { ... }], entered at [argI];
    [argc] is the length of [argv], so [argv[argI]] exists exactly when
    [argI < argc]. *)
Fixpoint arg_loop (fuel : nat) (b : Build) (argv : list string) (argI : nat)
  (g : Globals) (l : Locals) : ArgOutcome * Globals * Locals * list Event :=
  match fuel with
  | O => (ArgsFuel, g, l, [])
  | S fuel' =>
      match nth_error argv argI with
      | None => (ArgsDone, g, l, [])
      | Some arg =>
          match arg_body b argv argI arg g l with
          | (Next i, g1, l1, out) =>
              let '(r, g2, l2, out') := arg_loop fuel' b argv (S i) g1 l1 in
              (r, g2, l2, (out ++ out')%list)
          | (Return c, g1, l1, out) => (ArgsReturn c, g1, l1, out)
          | (NullArgument, g1, l1, out) => (ArgsNullArgument, g1, l1, out)
          end
      end
  end.

(** The Configuration Resolver: the loop from [argI = 1], with a budget
    that always suffices (see [parse_args_total]). *)
Definition parse_args (b : Build) (argv : list string)
  : ArgOutcome * Globals * Locals * list Event :=
  arg_loop (S (List.length argv)) b argv 1 initial_globals initial_locals.

(** ** [main]: discovery, open, handler installation (lines 265-309) *)

(** [freenect2.openDevice(serial[, pipeline])] creating the object [p]. *)
Definition openDevice (f : Freenect2) (serial : string) (p : DevPtr)
  (h : Devices) : option DevPtr * Devices :=
  if can_open f serial then (Some p, dev_set h p Opened) else (None, h).

(** The pipelines handed to the two [openDevice] calls: the selected ones
    when both are set (line 287), the driver's default otherwise. *)
Definition pipeline_for_1 (l : Locals) : option PacketPipeline :=
  if non_null (pipeline_1 l) && non_null (pipeline_2 l)
  then pipeline_1 l else None.
Definition pipeline_for_2 (l : Locals) : option PacketPipeline :=
  if non_null (pipeline_1 l) && non_null (pipeline_2 l)
  then pipeline_2 l else None.

(** How [main] leaves its sequential first part. *)
Inductive Setup :=
| Exit (code : Z)
| Undefined                          (** null pointer handed to [strtol] *)
| Started (dev_1 dev_2 : DevPtr).    (** both worker threads are launched *)

Definition no_devices : Devices := mkDevices None None.

Definition main_setup (b : Build) (f : Freenect2) (argv : list string)
  : Setup * Globals * Devices * list Event :=
  match parse_args b argv with
  | (ArgsReturn c, g, _, out) => (Exit c, g, no_devices, out)
  | (ArgsNullArgument, g, _, out) => (Undefined, g, no_devices, out)
  | (ArgsFuel, g, _, out) => (Undefined, g, no_devices, out)
  | (ArgsDone, g, l, out) =>
    if negb (enable_rgb g) && negb (enable_depth g)
    then (Exit (-1), g, no_devices,
          out ++ [Cerr "Disabling both streams is not allowed!"])%list
    else if enumerateDevices f =? 0
    then (Exit (-1), g, no_devices,
          out ++ [EnumerateDevices; Cout "no device connected!"])%list
    else if enumerateDevices f =? 1
    then (Exit (-1), g, no_devices,
          out ++ [EnumerateDevices; EnumerateDevices;
                  Cout "only one device is connected"])%list
    else
      let out := (out ++ [EnumerateDevices; EnumerateDevices])%list in
      let '(l, out) :=
        if streq (serial_1 l) "" || streq (serial_2 l) ""
        then (set_serials (getDeviceSerialNumber f 0)
                          (getDeviceSerialNumber f 1) l,
              (out ++ [GetDeviceSerialNumber 0; GetDeviceSerialNumber 1])%list)
        else (l, out) in
      let pl1 := pipeline_for_1 l in
      let pl2 := pipeline_for_2 l in
      let '(dev_1, h) := openDevice f (serial_1 l) DevA no_devices in
      let '(dev_2, h) := openDevice f (serial_2 l) DevB h in
      let out := (out ++ [OpenDevice (serial_1 l) pl1 dev_1;
                          OpenDevice (serial_2 l) pl2 dev_2])%list in
      match dev_1, dev_2 with
      | Some d1, Some d2 =>
          let g := set_devtopause dev_1 dev_2 g in
          let g := set_protonect_shutdown false g in
          (Started d1 d2, g, h,
           out ++ [Cout "Successfully opened the devices";
                   InstallHandler SIGINT]
               ++ (if HAVE_SIGUSR1 b then [InstallHandler SIGUSR1] else []))%list
      | _, _ =>
          (Exit (-1), g, h,
           out ++ [Cout "failure opening device or devices!"])%list
      end
  end.

(** [main] after both workers have been joined (lines 322-330). *)
Definition main_teardown (dev_1 dev_2 : DevPtr) (h : Devices)
  : Z * Devices * list Event :=
  let h := fst (dev_stop dev_1 h) in
  let h := fst (dev_stop dev_2 h) in
  let h := fst (dev_close dev_1 h) in
  let h := fst (dev_close dev_2 h) in
  (0, h, [DevStop dev_1; DevStop dev_2; DevClose dev_1; DevClose dev_2]).

(** ** The signal handlers (lines 55-84) *)

(** [sigint_handler]: [protonect_shutdown = true;]. *)
Definition sigint_handler (g : Globals) : Globals :=
  set_protonect_shutdown true g.

(** [sigusr1_handler].  It returns at once while either [devtopause]
    pointer is null; otherwise it starts both devices when
    [protonect_paused] is set and stops both when it is not, and negates
    the flag.  The results of the calls are dropped.  [hw1] and [hw2] say
    whether the hardware accepts a start of the first and second device. *)
Definition sigusr1_handler (hw1 hw2 : bool) (g : Globals) (h : Devices)
  : Globals * Devices * list Event :=
  match devtopause_1 g, devtopause_2 g with
  | Some p1, Some p2 =>
      let '(h, out) :=
        if protonect_paused g
        then (fst (dev_start hw2 p2 (fst (dev_start hw1 p1 h))),
              [DevStart p1; DevStart p2])
        else (fst (dev_stop p2 (fst (dev_stop p1 h))),
              [DevStop p1; DevStop p2]) in
      (set_protonect_paused (negb (protonect_paused g)) g, h, out)
  | _, _ => (g, h, [])
  end.

(** ** The Capture Worker: [running] (lines 333-427) *)

(** Modelled from the spec: the stream-type bits of [libfreenect2::Frame],
    declared in a header that is not under src/. *)
Definition Frame_Color : Z := 1.
Definition Frame_Ir : Z := 2.
Definition Frame_Depth : Z := 4.

(** Lines 335-341. *)
Definition frame_types (g : Globals) : Z :=
  let types := 0 in
  let types := if enable_rgb g then Z.lor types Frame_Color else types in
  let types := if enable_depth g
               then Z.lor types (Z.lor Frame_Ir Frame_Depth) else types in
  types.

(** What one pass through the loop body meets from outside the worker:
    whether [waitForNewFrame] delivers a FrameSet before its timeout,
    whether [viewer.render()] asks to close, and the stores to
    [protonect_shutdown] that other contexts (the SIGINT handler, the other
    worker) make while this worker is (1) waiting for and handling the
    frame, (2) inside [viewer.render()], between its own read and its own
    write of the flag on line 417, (3) between the end of the body and the
    next loop test.  [None] is "no store", [Some v] is "the last such store
    wrote v". *)
Record Iter := mkIter {
  frame_arrives : bool;
  viewer_closes : bool;
  during_wait : option bool;
  during_render : option bool;
  after_body : option bool
}.

Definition interfere (w : option bool) (g : Globals) : Globals :=
  match w with
  | Some v => set_protonect_shutdown v g
  | None => g
  end.

Definition show_size (n : Z) : string :=
  NilZero.string_of_uint (N.to_uint (Z.to_N n)).

(** The loop test of line 381. *)
Definition loop_test (g : Globals) (framecount : Z) : bool :=
  negb (protonect_shutdown g)
  && ((framemax g =? to_size_t (-1)) || (framecount <? framemax g)).

(** The viewer part of the body, lines 405-418, present only with
    [EXAMPLES_WITH_OPENGL_SUPPORT].  Line 417 reads the flag, calls
    [viewer.render()] only if it read [false], and writes the disjunction
    back; stores made by others in between are overwritten. *)
Definition viewer_part (b : Build) (dev : DevPtr) (it : Iter) (g : Globals)
  : Globals * list Event :=
  if EXAMPLES_WITH_OPENGL_SUPPORT b then
    let out :=
      ((if enable_rgb g then [ViewerAddFrame dev "RGB"] else [])
       ++ (if enable_depth g
           then [ViewerAddFrame dev "ir"; ViewerAddFrame dev "depth"] else [])
       ++ (if enable_rgb g && enable_depth g
           then [ViewerAddFrame dev "registered"] else []))%list in
    let loaded := protonect_shutdown g in
    let '(value, out) :=
      if loaded then (true, out)
      else (viewer_closes it,
            (out ++ [ViewerRender dev (viewer_closes it)])%list) in
    let g := interfere (during_render it) g in
    (set_protonect_shutdown value g, out)
  else (interfere (during_render it) g, []).

(** One pass through the loop body, lines 382-421.  The first component is
    [false] when the pass ends in the [return] of line 384. *)
Definition loop_body (b : Build) (dev : DevPtr) (it : Iter) (g : Globals)
  (framecount : Z) : bool * Globals * Z * list Event :=
  let g := interfere (during_wait it) g in
  if negb (frame_arrives it)
  then (false, g, framecount,
        [WaitForNewFrame dev (10 * 1000) false; Cout "timeout!"])
  else
    let out :=
      (WaitForNewFrame dev (10 * 1000) true
       :: (if enable_rgb g && enable_depth g
           then [RegistrationApply dev] else []))%list in
    let framecount := to_size_t (framecount + 1) in
    let '(g, out) :=
      if negb (viewer_enabled g) then
        (interfere (during_render it) g,
         (out
          ++ (if framecount mod 100 =? 0
              then [Cout ("The viewer is turned off. Received "
                          ++ show_size framecount
                          ++ " frames. Ctrl-C to stop.")]
              else [])
          ++ [ListenerRelease dev])%list)
      else
        let '(g, vout) := viewer_part b dev it g in
        (g, (out ++ vout ++ [ListenerRelease dev])%list) in
    (true, interfere (after_body it) g, framecount, out).

(** How the loop is left. *)
Inductive LoopExit :=
| LoopEnds        (** the loop test failed *)
| TimedOut        (** [return] of line 384 *)
| StillRunning.   (** the supplied passes are used up and the test holds *)

(** [while (...) { ... }] of lines 381-423, one [Iter] per pass. *)
Fixpoint running_loop (b : Build) (dev : DevPtr) (its : list Iter)
  (g : Globals) (framecount : Z) : LoopExit * Globals * Z * list Event :=
  if loop_test g framecount then
    match its with
    | [] => (StillRunning, g, framecount, [])
    | it :: its' =>
        match loop_body b dev it g framecount with
        | (false, g1, n1, out) => (TimedOut, g1, n1, out)
        | (true, g1, n1, out) =>
            let '(r, g2, n2, out') := running_loop b dev its' g1 n1 in
            (r, g2, n2, (out ++ out')%list)
        end
    end
  else (LoopEnds, g, framecount, []).

(** How [running] returns. *)
Inductive WorkerExit :=
| StartFailed     (** [return] of line 346 or 351 *)
| WaitTimedOut    (** [return] of line 384 *)
| Finished        (** falls off the end after [delete registration] *)
| Unfinished.     (** still looping when the supplied passes are used up *)

(** [running(dev)].  [hw] says whether the hardware accepts the start. *)
Definition running (b : Build) (hw : bool) (its : list Iter) (dev : DevPtr)
  (g : Globals) (h : Devices)
  : WorkerExit * Globals * Devices * Z * list Event :=
  let types := frame_types g in
  let '(h, started, out) :=
    if enable_rgb g && enable_depth g
    then let '(h, ok) := dev_start hw dev h in (h, ok, [DevStart dev])
    else let '(h, ok) := dev_startStreams hw (enable_rgb g) (enable_depth g)
                                          dev h in
         (h, ok, [DevStartStreams dev (enable_rgb g) (enable_depth g)]) in
  if negb started then (StartFailed, g, h, 0, out)
  else
    let out :=
      (out ++ [NewListener dev types; SetColorFrameListener dev;
               SetIrAndDepthFrameListener dev; CoutSerialNumber dev;
               CoutFirmwareVersion dev; NewRegistration dev])%list in
    let '(g, out) :=
      if EXAMPLES_WITH_OPENGL_SUPPORT b
      then (g, if viewer_enabled g
               then (out ++ [ViewerInitialize dev])%list else out)
      else (set_viewer_enabled false g, out) in
    let framecount := 0 in
    match running_loop b dev its g framecount with
    | (LoopEnds, g, n, out') =>
        (Finished, g, h, n, (out ++ out' ++ [DeleteRegistration dev])%list)
    | (TimedOut, g, n, out') => (WaitTimedOut, g, h, n, (out ++ out')%list)
    | (StillRunning, g, n, out') => (Unfinished, g, h, n, (out ++ out')%list)
    end.

(** ** Observers of a trace *)

(** The listener's side of a worker's trace.  The listener lends at most
    one FrameSet at a time: a wait is legal only while nothing is lent and
    lends a set when it succeeds, a release is legal only while a set is
    lent and takes it back.  [listener_step] is [None] on an illegal call. *)
Definition listener_step (lent : bool) (e : Event) : option bool :=
  match e with
  | WaitForNewFrame _ _ got => if lent then None else Some got
  | ListenerRelease _ => if lent then Some false else None
  | _ => Some lent
  end.

Fixpoint listener_run (lent : bool) (tr : list Event) : option bool :=
  match tr with
  | [] => Some lent
  | e :: tr' =>
      match listener_step lent e with
      | Some lent' => listener_run lent' tr'
      | None => None
      end
  end.

Definition is_acquire (e : Event) : bool :=
  match e with WaitForNewFrame _ _ true => true | _ => false end.
Definition is_wait (e : Event) : bool :=
  match e with WaitForNewFrame _ _ _ => true | _ => false end.
Definition is_release (e : Event) : bool :=
  match e with ListenerRelease _ => true | _ => false end.
Definition is_start_or_stop (e : Event) : bool :=
  match e with
  | DevStart _ | DevStartStreams _ _ _ | DevStop _ => true
  | _ => false
  end.
Definition is_close (e : Event) : bool :=
  match e with DevClose _ => true | _ => false end.

Definition count (f : Event -> bool) (tr : list Event) : Z :=
  Z.of_nat (List.length (filter f tr)).

(** The longest a worker can stay blocked over a trace, in milliseconds:
    the sum of the timeouts of its waits, the wait being the only call of
    the worker that blocks. *)
Fixpoint blocking_budget (tr : list Event) : Z :=
  match tr with
  | [] => 0
  | WaitForNewFrame _ timeout_ms _ :: tr' => timeout_ms + blocking_budget tr'
  | _ :: tr' => blocking_budget tr'
  end.

(** A pass in which a frame arrives, the viewer does not ask to close and no
    other context stores [true] into [protonect_shutdown]. *)
Definition no_request (w : option bool) : bool :=
  match w with Some true => false | _ => true end.

Definition undisturbed (it : Iter) : bool :=
  frame_arrives it && negb (viewer_closes it)
  && no_request (during_wait it) && no_request (during_render it)
  && no_request (after_body it).

(** A device object that has been opened and not closed. *)
Definition is_open (s : option DevState) : bool :=
  match s with
  | Some Opened | Some (Streaming _ _) => true
  | _ => false
  end.

(** Projections of the results. *)
Definition outcome_of {A B C D : Type} (r : A * B * C * D) : A :=
  fst (fst (fst r)).
Definition globals_of {A B C D : Type} (r : A * B * C * D) : B :=
  snd (fst (fst r)).
Definition third_of {A B C D : Type} (r : A * B * C * D) : C :=
  snd (fst r).
Definition trace_of {A B C D : Type} (r : A * B * C * D) : D := snd r.

(** ** Scenarios used below *)

(** A build with the viewer and SIGUSR1, without CUDA. *)
Definition desktop_build : Build := mkBuild true false true true.

(** Three sensors on the bus, all of which open. *)
Definition three_sensors : Freenect2 :=
  mkFreenect2 ["011054343347"; "003726334247"; "500123441542"] (fun _ => true).

(** Two sensors on the bus; the second one cannot be opened. *)
Definition second_refuses : Freenect2 :=
  mkFreenect2 ["011054343347"; "003726334247"]
              (fun s => streq s "011054343347").

(** Globals and devices right after [main] has launched the workers and
    before either worker has started its device. *)
Definition launched_globals : Globals :=
  set_protonect_shutdown false
    (set_devtopause (Some DevA) (Some DevB) initial_globals).
Definition both_opened : Devices := mkDevices (Some Opened) (Some Opened).
Definition both_streaming : Devices :=
  mkDevices (Some (Streaming true true)) (Some (Streaming true true)).

(** A pass with a frame, no close request and no store by anybody else. *)
Definition calm : Iter := mkIter true false None None None.

(** A pass with a frame in which SIGINT is delivered while the worker is
    inside [viewer.render()], and the viewer does not ask to close. *)
Definition sigint_in_render : Iter := mkIter true false None (Some true) None.

(** Two deliveries of SIGUSR1, one after the other: pause, then resume (or
    resume, then pause). *)
Definition pause_twice (hw1 hw2 : bool) (g : Globals) (h : Devices)
  : Globals * Devices :=
  let '(g1, h1, _) := sigusr1_handler hw1 hw2 g h in
  let '(g2, h2, _) := sigusr1_handler hw1 hw2 g1 h1 in
  (g2, h2).

(** The devices are in the condition that [protonect_paused] stands for:
    not paused and both streaming color and depth (and the hardware will
    accept the restart), or paused and both stopped. *)
Definition matches_flag (hw1 hw2 : bool) (g : Globals) (h : Devices)
  (p1 p2 : DevPtr) : Prop :=
  (protonect_paused g = false
   /\ dev_get h p1 = Some (Streaming true true)
   /\ dev_get h p2 = Some (Streaming true true)
   /\ hw1 = true /\ hw2 = true)
  \/ (protonect_paused g = true
      /\ dev_get h p1 = Some Opened
      /\ dev_get h p2 = Some Opened).

(** Both devices streaming depth only, as two workers started them under
    [-norgb]. *)
Definition both_depth_only : Devices :=
  mkDevices (Some (Streaming false true)) (Some (Streaming false true)).

Definition is_open_call (e : Event) : bool :=
  match e with OpenDevice _ _ _ => true | _ => false end.

(** A pass with a frame in which the viewer asks to close. *)
Definition viewer_close : Iter := mkIter true true None None None.

(** The globals of a headless session limited to three frames. *)
Definition three_frames_headless : Globals :=
  set_framemax 3 (set_viewer_enabled false launched_globals).

(** ** Further observers and scenarios *)

Definition is_console (e : Event) : bool :=
  match e with Cout _ | Cerr _ => true | _ => false end.
Definition is_stop_or_close (e : Event) : bool :=
  match e with DevStop _ | DevClose _ => true | _ => false end.
Definition is_viewer_call (e : Event) : bool :=
  match e with
  | ViewerInitialize _ | ViewerAddFrame _ _ | ViewerRender _ _ => true
  | _ => false
  end.
Definition is_apply (e : Event) : bool :=
  match e with RegistrationApply _ => true | _ => false end.

Definition is_delete (e : Event) : bool :=
  match e with DeleteRegistration _ => true | _ => false end.
Definition is_new_registration (e : Event) : bool :=
  match e with NewRegistration _ => true | _ => false end.

(** The tokens of line 178. *)
Definition help_tokens : list string :=
  ["-help"; "--help"; "-h"; "-v"; "--version"; "-version"].

(** [n] deliveries of SIGUSR1, one after the other. *)
Fixpoint sigusr1_times (n : nat) (hw1 hw2 : bool) (g : Globals) (h : Devices)
  : Globals * Devices :=
  match n with
  | O => (g, h)
  | S n' =>
      let '(g1, h1, _) := sigusr1_handler hw1 hw2 g h in
      sigusr1_times n' hw1 hw2 g1 h1
  end.

Definition is_none {A : Type} (o : option A) : bool :=
  match o with None => true | Some _ => false end.

(** A pass in which the viewer does not ask to close and no other context
    stores into [protonect_shutdown]; the frame may arrive or not. *)
Definition left_alone (it : Iter) : bool :=
  negb (viewer_closes it) && is_none (during_wait it)
  && is_none (during_render it) && is_none (after_body it).

Definition both_closed : Devices := mkDevices (Some Closed) (Some Closed).

(** A pass whose wait runs into its timeout. *)
Definition no_frame : Iter := mkIter false false None None None.

(** Projections of the result of [running]. *)
Definition worker_exit {A B C D E : Type} (r : A * B * C * D * E) : A :=
  fst (fst (fst (fst r))).
Definition worker_globals {A B C D E : Type} (r : A * B * C * D * E) : B :=
  snd (fst (fst (fst r))).
Definition worker_devices {A B C D E : Type} (r : A * B * C * D * E) : C :=
  snd (fst (fst r)).
Definition worker_count {A B C D E : Type} (r : A * B * C * D * E) : D :=
  snd (fst r).
Definition worker_trace {A B C D E : Type} (r : A * B * C * D * E) : E :=
  snd r.

(** The calls [running] makes before its loop once the device has started
    (lines 343-376), and the globals it enters the loop with. *)
Definition worker_prologue (b : Build) (dev : DevPtr) (g : Globals)
  : list Event :=
  ((if enable_rgb g && enable_depth g
    then [DevStart dev]
    else [DevStartStreams dev (enable_rgb g) (enable_depth g)])
   ++ [NewListener dev (frame_types g); SetColorFrameListener dev;
       SetIrAndDepthFrameListener dev; CoutSerialNumber dev;
       CoutFirmwareVersion dev; NewRegistration dev]
   ++ (if EXAMPLES_WITH_OPENGL_SUPPORT b && viewer_enabled g
       then [ViewerInitialize dev] else []))%list.

Definition worker_loop_globals (b : Build) (g : Globals) : Globals :=
  if EXAMPLES_WITH_OPENGL_SUPPORT b then g else set_viewer_enabled false g.

(** ** Proof steps used more than once *)

(** Peel the conditionals at the head of the left-hand side of [H], from
    the outside in. *)
Ltac peel H :=
  repeat match type of H with
         | (match ?c with _ => _ end) = _ => destruct c eqn:?
         end.

(** Destruct every conditional of the goal. *)
Ltac split_ifs :=
  repeat match goal with
         | |- context [if ?c then _ else _] => destruct c eqn:?
         end.

(** * Properties *)

(** ** The argument loop *)

Section ArgumentLoop.

Variable b : Build.

(** The body leaves [argI] alone or, for [-frames] with a value, moves it
    to the value's position. *)
Lemma arg_body_next (argv : list string) (argI : nat) (arg : string)
  (g g' : Globals) (l l' : Locals) (i : nat) (out : list Event) :
  arg_body b argv argI arg g l = (Next i, g', l', out) ->
  i = argI \/ (i = S argI /\ nth_error argv (S argI) <> None).
Proof.
  unfold arg_body. intros H. peel H; inversion H; subst; auto.
  right. split; [reflexivity | congruence].
Qed.

(** The body looks at [argv] only at position [argI + 1]. *)
Lemma arg_body_local (argv argv' : list string) (argI : nat) (arg : string)
  (g : Globals) (l : Locals) :
  nth_error argv (S argI) = nth_error argv' (S argI) ->
  arg_body b argv argI arg g l = arg_body b argv' argI arg g l.
Proof.
  intros H. unfold arg_body. rewrite H. reflexivity.
Qed.

(** With a budget larger than the number of tokens left, the budget does
    not matter. *)
Lemma arg_loop_fuel (argv : list string) :
  forall (f1 f2 argI : nat) (g : Globals) (l : Locals),
    (List.length argv - argI < f1)%nat ->
    (List.length argv - argI < f2)%nat ->
    arg_loop f1 b argv argI g l = arg_loop f2 b argv argI g l.
Proof.
  induction f1 as [|f1 IH]; intros f2 argI g l H1 H2; [lia|].
  destruct f2 as [|f2]; [lia|]. simpl.
  destruct (nth_error argv argI) as [arg|] eqn:Harg; [|reflexivity].
  assert (Hlt : (argI < List.length argv)%nat)
    by (apply nth_error_Some; congruence).
  destruct (arg_body b argv argI arg g l) as [[[fl g1] l1] out] eqn:Hb.
  destruct fl as [i| |]; try reflexivity.
  apply arg_body_next in Hb.
  rewrite (IH f2 (S i) g1 l1); [reflexivity | lia | lia].
Qed.

(** The budget of [parse_args] is never used up: the resolver always
    comes to one of its three real outcomes. *)
Lemma arg_loop_total (argv : list string) :
  forall (f argI : nat) (g : Globals) (l : Locals),
    (List.length argv - argI < f)%nat ->
    outcome_of (arg_loop f b argv argI g l) <> ArgsFuel.
Proof.
  induction f as [|f IH]; intros argI g l H; [lia|]. simpl.
  destruct (nth_error argv argI) as [arg|] eqn:Harg; [|discriminate].
  assert (Hlt : (argI < List.length argv)%nat)
    by (apply nth_error_Some; congruence).
  destruct (arg_body b argv argI arg g l) as [[[fl g1] l1] out] eqn:Hb.
  destruct fl as [i| |]; try discriminate.
  apply arg_body_next in Hb.
  specialize (IH (S i) g1 l1).
  destruct (arg_loop f b argv (S i) g1 l1) as [[[r g2] l2] out'].
  unfold outcome_of in *. simpl in *. apply IH. lia.
Qed.

Lemma parse_args_total (argv : list string) :
  outcome_of (parse_args b argv) <> ArgsFuel.
Proof.
  unfold parse_args. apply arg_loop_total. lia.
Qed.

(** A loop that runs to its end over [pre] does the same over a longer
    list, and arrives at position [length pre] with the same state. *)
Lemma arg_loop_extend (pre suf : list string) :
  forall (f argI : nat) (g g' : Globals) (l l' : Locals) (out : list Event),
    arg_loop f b pre argI g l = (ArgsDone, g', l', out) ->
    (argI <= List.length pre)%nat ->
    forall f2 : nat,
      (List.length (pre ++ suf) - argI < f2)%nat ->
      arg_loop f2 b (pre ++ suf) argI g l =
      (let '(r, g2, l2, out2) :=
         arg_loop f2 b (pre ++ suf) (List.length pre) g' l' in
       (r, g2, l2, (out ++ out2)%list)).
Proof.
  induction f as [|f IH]; intros argI g g' l l' out H Hle f2 Hf2;
    [discriminate|].
  simpl in H.
  destruct (nth_error pre argI) as [arg|] eqn:Harg.
  - assert (Hlt : (argI < List.length pre)%nat)
      by (apply nth_error_Some; congruence).
    destruct (arg_body b pre argI arg g l) as [[[fl g1] l1] o1] eqn:Hb.
    destruct fl as [i| |]; try discriminate.
    destruct (arg_loop f b pre (S i) g1 l1) as [[[r g2] l2] o2] eqn:Hrec.
    inversion H; subst; clear H.
    pose proof (arg_body_next _ _ _ _ _ _ _ _ _ Hb) as Hi.
    assert (Hi' : (S i <= List.length pre)%nat).
    { destruct Hi as [-> | [-> Hn]]; [lia|].
      apply nth_error_Some in Hn. lia. }
    assert (Hloc : arg_body b pre argI arg g l
                   = arg_body b (pre ++ suf) argI arg g l).
    { destruct (Nat.lt_ge_cases (S argI) (List.length pre)) as [Hin|Hout].
      - apply arg_body_local. symmetry. apply nth_error_app1. exact Hin.
      - assert (Hnone : nth_error pre (S argI) = None)
          by (apply nth_error_None; lia).
        clear - Hb Hnone. unfold arg_body in *.
        peel Hb; try reflexivity; congruence. }
    destruct f2 as [|f2]; [lia|].
    remember (arg_loop (S f2) b (pre ++ suf) (List.length pre) g' l')
      as after eqn:Hafter.
    simpl.
    rewrite nth_error_app1 by exact Hlt. rewrite Harg.
    rewrite <- Hloc. rewrite Hb.
    rewrite length_app in Hf2.
    rewrite (IH (S i) g1 g' l1 l' o2 Hrec Hi' f2)
      by (rewrite length_app; lia).
    rewrite (arg_loop_fuel (pre ++ suf) f2 (S f2) (List.length pre))
      by (rewrite length_app; lia).
    rewrite <- Hafter.
    destruct after as [[[r g2] l2] o3].
    rewrite app_assoc. reflexivity.
  - inversion H; subst; clear H.
    assert (argI = List.length pre)
      by (apply nth_error_None in Harg; lia).
    subst argI. simpl.
    destruct (arg_loop f2 b (pre ++ suf) (List.length pre) g' l')
      as [[[r g2] l2] o3].
    reflexivity.
Qed.

End ArgumentLoop.

(** The body at the token [-frames]: the value is read at [argI + 1]
    whether or not that position exists. *)
Lemma arg_body_frames (b : Build) (argv : list string) (argI : nat)
  (g : Globals) (l : Locals) :
  arg_body b argv argI "-frames" g l =
  match nth_error argv (S argI) with
  | None => (NullArgument, g, l, [])
  | Some v =>
      if to_size_t (CLib.strtol v 0) <=? 0
      then (Return (-1), set_framemax (to_size_t (CLib.strtol v 0)) g, l,
            [Cerr ("invalid frame count '" ++ v ++ "'")])
      else (Next (S argI), set_framemax (to_size_t (CLib.strtol v 0)) g, l, [])
  end.
Proof. reflexivity. Qed.

(** A value that converts to 0 (the text "0", or text with no digits at its
    head) is rejected with exit code -1. *)
Lemma frames_zero_rejected (b : Build) (argv : list string) (argI : nat)
  (v : string) (g : Globals) (l : Locals) :
  nth_error argv (S argI) = Some v ->
  CLib.strtol v 0 = 0 ->
  fst (fst (fst (arg_body b argv argI "-frames" g l))) = Return (-1).
Proof.
  intros Hv H0. rewrite arg_body_frames, Hv, H0. reflexivity.
Qed.

(** The test [framemax <= 0] is made on the [size_t], where a negative
    [long] has become a large positive number: it lets every negative value
    through. *)
Lemma frames_negative_passes (b : Build) (argv : list string) (argI : nat)
  (v : string) (g : Globals) (l : Locals) :
  nth_error argv (S argI) = Some v ->
  CLib.strtol v 0 < 0 ->
  arg_body b argv argI "-frames" g l =
  (Next (S argI), set_framemax (CLib.strtol v 0 + 2 ^ 64) g, l, []).
Proof.
  intros Hv Hneg. rewrite arg_body_frames, Hv.
  assert (Hr : LONG_MIN <= CLib.strtol v 0).
  { unfold CLib.strtol.
    destruct (match CLib.skip_space v with
              | String "-" r => (true, r)
              | String "+" r => (false, r)
              | _ => (false, CLib.skip_space v)
              end) as [neg s2].
    destruct (CLib.pick_base 0 s2) as [bs s3].
    unfold CLib.clamp_long.
    destruct (_ <? LONG_MIN) eqn:E1; [lia|].
    apply Z.ltb_ge in E1.
    destruct (LONG_MAX <? _) eqn:E2; [unfold LONG_MIN, LONG_MAX; lia | lia]. }
  assert (Hc : to_size_t (CLib.strtol v 0) = CLib.strtol v 0 + 2 ^ 64).
  { unfold to_size_t, SIZE_MAX, LONG_MIN in *.
    symmetry. apply Z.mod_unique with (q := -1); lia. }
  rewrite Hc.
  destruct (_ <=? 0) eqn:E; [|reflexivity].
  apply Z.leb_le in E. unfold LONG_MIN in Hr. lia.
Qed.

(** The command line of the end-to-end scenario: CPU pipeline on both
    slots, depth disabled, five frames. *)
Example resolve_cpu_nodepth_frames_5 :
  parse_args desktop_build ["Protonect"; "cpu"; "-nodepth"; "-frames"; "5"]
  = (ArgsDone,
     set_framemax 5 (set_enable_depth false initial_globals),
     set_pipelines CpuPacketPipeline initial_locals,
     []).
Proof. reflexivity. Qed.

(** C9, what the code does instead: the value "-5" after [-frames] is
    not rejected.  [strtol] yields -5, the conversion to [size_t] turns it
    into 2^64 - 5, the test [framemax <= 0] fails, the resolver ends
    normally with that enormous limit and [main] goes on to open and
    launch both devices. *)
Theorem negative_frame_count_is_accepted :
  CLib.strtol "-5" 0 = -5
  /\ parse_args desktop_build ["Protonect"; "-frames"; "-5"]
     = (ArgsDone, set_framemax (2 ^ 64 - 5) initial_globals,
        initial_locals, [])
  /\ outcome_of (main_setup desktop_build three_sensors
                            ["Protonect"; "-frames"; "-5"])
     = Started DevA DevB.
Proof. repeat split; vm_compute; reflexivity. Qed.

(** C10: when [-frames] is the last token, the resolver reads [argv] one
    position past the end and hands that null entry to [strtol]: whenever
    the loop runs to its end over the tokens [pre], over [pre] followed by
    [-frames] it ends in [NullArgument], in the same state and with the
    same output, so with no "invalid frame count" message and no exit code;
    for [main] this is undefined behaviour, not a configuration error. *)
Theorem frames_as_last_token_reads_past_the_end
  (b : Build) (f : Freenect2) (pre : list string) (g : Globals) (l : Locals)
  (out : list Event) :
  pre <> [] ->
  parse_args b pre = (ArgsDone, g, l, out) ->
  nth_error (pre ++ ["-frames"]) (S (List.length pre)) = None
  /\ parse_args b (pre ++ ["-frames"]) = (ArgsNullArgument, g, l, out)
  /\ main_setup b f (pre ++ ["-frames"]) = (Undefined, g, no_devices, out).
Proof.
  intros Hne Hpre.
  assert (Hnone : nth_error (pre ++ ["-frames"]) (S (List.length pre)) = None).
  { apply nth_error_None. rewrite length_app. simpl. lia. }
  assert (Hparse : parse_args b (pre ++ ["-frames"])
                   = (ArgsNullArgument, g, l, out)).
  { unfold parse_args in *.
    assert (Hlen : (1 <= List.length pre)%nat)
      by (destruct pre; [congruence | simpl; lia]).
    rewrite (arg_loop_extend b pre ["-frames"] _ 1 _ g _ l out Hpre Hlen)
      by lia.
    cbn [arg_loop].
    rewrite nth_error_app2 by lia. rewrite Nat.sub_diag. cbn [nth_error].
    rewrite arg_body_frames, Hnone.
    rewrite app_nil_r. reflexivity. }
  repeat split; [exact Hnone | exact Hparse |].
  unfold main_setup. rewrite Hparse. reflexivity.
Qed.

(** The theorem at the shortest such command line, [Protonect -frames]. *)
Lemma frames_as_last_token_witness :
  parse_args desktop_build (["Protonect"] ++ ["-frames"])
  = (ArgsNullArgument, initial_globals, initial_locals, []).
Proof.
  apply (frames_as_last_token_reads_past_the_end
           desktop_build three_sensors ["Protonect"]
           initial_globals initial_locals []).
  - discriminate.
  - reflexivity.
Defined.

(** ** Discovery and open *)

(** The argument loop never assigns [serial_1] or [serial_2] (the line
    that did is commented out), so both are still empty after it. *)
Lemma arg_body_serials (b : Build) (argv : list string) (argI : nat)
  (arg : string) (g g' : Globals) (l l' : Locals) (fl : Flow)
  (out : list Event) :
  arg_body b argv argI arg g l = (fl, g', l', out) ->
  serial_1 l' = serial_1 l /\ serial_2 l' = serial_2 l.
Proof.
  unfold arg_body, select_pipeline. intros H.
  peel H;
    inversion H; subst; split; try reflexivity;
    match goal with
    | |- context [if ?c then _ else _] => destruct c
    end; reflexivity.
Qed.

Lemma arg_loop_serials (b : Build) (argv : list string) :
  forall (fuel argI : nat) (g g' : Globals) (l l' : Locals) (r : ArgOutcome)
         (out : list Event),
    arg_loop fuel b argv argI g l = (r, g', l', out) ->
    serial_1 l' = serial_1 l /\ serial_2 l' = serial_2 l.
Proof.
  induction fuel as [|fuel IH]; intros argI g g' l l' r out H; simpl in H.
  - inversion H; subst; split; reflexivity.
  - destruct (nth_error argv argI) as [arg|];
      [|inversion H; subst; split; reflexivity].
    destruct (arg_body b argv argI arg g l) as [[[fl g1] l1] o1] eqn:Hb.
    apply arg_body_serials in Hb. destruct Hb as [Hb1 Hb2].
    destruct fl as [i| |];
      try (inversion H; subst; split; assumption).
    destruct (arg_loop fuel b argv (S i) g1 l1) as [[[r2 g2] l2] o2] eqn:Hr.
    apply IH in Hr. destruct Hr as [Hr1 Hr2].
    inversion H; subst. split; congruence.
Qed.

Lemma parse_args_serials (b : Build) (argv : list string) (g : Globals)
  (l : Locals) (r : ArgOutcome) (out : list Event) :
  parse_args b argv = (r, g, l, out) ->
  serial_1 l = "" /\ serial_2 l = "".
Proof.
  unfold parse_args. intros H. apply arg_loop_serials in H. exact H.
Qed.

(** What [main] does once the argument loop has ended normally with at
    least one stream enabled and at least two devices are connected: it
    takes the serials at indices 0 and 1, opens both and looks at the two
    results. *)
Lemma main_setup_pair (b : Build) (f : Freenect2) (argv : list string)
  (g : Globals) (l : Locals) (out : list Event) (s0 s1 : string)
  (more : list string) :
  parse_args b argv = (ArgsDone, g, l, out) ->
  enable_rgb g || enable_depth g = true ->
  connected f = s0 :: s1 :: more ->
  main_setup b f argv =
  (let l' := set_serials s0 s1 l in
   let '(dev_1, h) := openDevice f s0 DevA no_devices in
   let '(dev_2, h) := openDevice f s1 DevB h in
   let out :=
     (out ++ [EnumerateDevices; EnumerateDevices;
              GetDeviceSerialNumber 0; GetDeviceSerialNumber 1]
          ++ [OpenDevice s0 (pipeline_for_1 l') dev_1;
              OpenDevice s1 (pipeline_for_2 l') dev_2])%list in
   match dev_1, dev_2 with
   | Some d1, Some d2 =>
       (Started d1 d2,
        set_protonect_shutdown false (set_devtopause dev_1 dev_2 g), h,
        out ++ [Cout "Successfully opened the devices";
                InstallHandler SIGINT]
            ++ (if HAVE_SIGUSR1 b then [InstallHandler SIGUSR1] else []))%list
   | _, _ =>
       (Exit (-1), g, h,
        out ++ [Cout "failure opening device or devices!"])%list
   end).
Proof.
  intros Hparse Hstreams Hconn.
  destruct (parse_args_serials _ _ _ _ _ _ Hparse) as [Hs1 Hs2].
  unfold main_setup. rewrite Hparse.
  assert (Hboth : negb (enable_rgb g) && negb (enable_depth g) = false)
    by (destruct (enable_rgb g), (enable_depth g); simpl in *; congruence).
  rewrite Hboth.
  unfold enumerateDevices, getDeviceSerialNumber. rewrite Hconn.
  replace (Z.of_nat (List.length (s0 :: s1 :: more)) =? 0) with false
    by (symmetry; apply Z.eqb_neq; simpl List.length; lia).
  replace (Z.of_nat (List.length (s0 :: s1 :: more)) =? 1) with false
    by (symmetry; apply Z.eqb_neq; simpl List.length; lia).
  rewrite Hs1. cbn [streq String.eqb orb nth].
  cbn [serial_1 serial_2 set_serials].
  destruct (openDevice f s0 DevA no_devices) as [d1 h1].
  destruct (openDevice f s1 DevB h1) as [d2 h2].
  rewrite <- !app_assoc.
  destruct d1, d2; reflexivity.
Qed.

(** C6: discovery is three-valued.  Once the argument loop has ended
    normally with a stream enabled: with no device connected [main] prints
    "no device connected!" and returns -1; with exactly one it prints "only
    one device is connected" and returns -1, opening nothing; with two or
    more it asks for the serials at indices 0 and 1 and opens exactly those
    two, in that order.  The exit code -1 is not zero. *)
Theorem discovery_is_three_valued (b : Build) (f : Freenect2)
  (argv : list string) (g : Globals) (l : Locals) (out : list Event) :
  parse_args b argv = (ArgsDone, g, l, out) ->
  enable_rgb g || enable_depth g = true ->
  -1 <> 0
  /\ match connected f with
     | [] =>
         main_setup b f argv =
         (Exit (-1), g, no_devices,
          out ++ [EnumerateDevices; Cout "no device connected!"])%list
     | [_] =>
         main_setup b f argv =
         (Exit (-1), g, no_devices,
          out ++ [EnumerateDevices; EnumerateDevices;
                  Cout "only one device is connected"])%list
     | s0 :: s1 :: _ =>
         getDeviceSerialNumber f 0 = s0
         /\ getDeviceSerialNumber f 1 = s1
         /\ exists pl1 pl2 dev_1 dev_2 rest,
             trace_of (main_setup b f argv) =
             (out ++ [EnumerateDevices; EnumerateDevices;
                      GetDeviceSerialNumber 0; GetDeviceSerialNumber 1]
                  ++ [OpenDevice s0 pl1 dev_1; OpenDevice s1 pl2 dev_2]
                  ++ rest)%list
             /\ count is_open_call rest = 0
     end.
Proof.
  intros Hparse Hstreams. split; [lia|].
  assert (Hboth : negb (enable_rgb g) && negb (enable_depth g) = false)
    by (destruct (enable_rgb g), (enable_depth g); simpl in *; congruence).
  destruct (connected f) as [|s0 [|s1 more]] eqn:Hconn.
  - unfold main_setup. rewrite Hparse, Hboth.
    unfold enumerateDevices. rewrite Hconn. reflexivity.
  - unfold main_setup. rewrite Hparse, Hboth.
    unfold enumerateDevices. rewrite Hconn. reflexivity.
  - unfold getDeviceSerialNumber. rewrite Hconn.
    split; [reflexivity | split; [reflexivity |]].
    rewrite (main_setup_pair b f argv g l out s0 s1 more Hparse Hstreams Hconn).
    cbv zeta.
    destruct (openDevice f s0 DevA no_devices) as [d1 h1].
    destruct (openDevice f s1 DevB h1) as [d2 h2].
    exists (pipeline_for_1 (set_serials s0 s1 l)),
           (pipeline_for_2 (set_serials s0 s1 l)), d1, d2.
    destruct d1 as [p1|], d2 as [p2|]; unfold trace_of; cbn [snd];
      eexists; (split; [rewrite <- !app_assoc; reflexivity |]);
      try reflexivity.
    destruct (HAVE_SIGUSR1 b); reflexivity.
Qed.

(** The theorem on a command line that selects the CPU pipeline, once for
    each of the three cases. *)
Lemma discovery_is_three_valued_witness :
  main_setup desktop_build (mkFreenect2 [] (fun _ => true))
             ["Protonect"; "cpu"]
  = (Exit (-1), initial_globals, no_devices,
     [EnumerateDevices; Cout "no device connected!"])
  /\ main_setup desktop_build (mkFreenect2 ["011054343347"] (fun _ => true))
                ["Protonect"; "cpu"]
     = (Exit (-1), initial_globals, no_devices,
        [EnumerateDevices; EnumerateDevices;
         Cout "only one device is connected"])
  /\ getDeviceSerialNumber three_sensors 1 = "003726334247".
Proof.
  pose proof (fun f =>
    discovery_is_three_valued desktop_build f ["Protonect"; "cpu"]
      initial_globals
      (mkLocals (Some CpuPacketPipeline) (Some CpuPacketPipeline) "" "" (-1))
      [] eq_refl eq_refl) as H.
  split; [|split].
  - exact (proj2 (H (mkFreenect2 [] (fun _ => true)))).
  - exact (proj2 (H (mkFreenect2 ["011054343347"] (fun _ => true)))).
  - exact (proj1 (proj2 (proj2 (H three_sensors)))).
Defined.

(** On every partial failure of the pair (the first device opens, the
    second does not) [main] prints its message and returns -1 with the
    opened device still in the store as [Opened]: nothing closes it. *)
Lemma partial_open_exit (b : Build) (f : Freenect2) (argv : list string)
  (g : Globals) (l : Locals) (out : list Event) (s0 s1 : string)
  (more : list string) :
  parse_args b argv = (ArgsDone, g, l, out) ->
  enable_rgb g || enable_depth g = true ->
  connected f = s0 :: s1 :: more ->
  can_open f s0 = true ->
  can_open f s1 = false ->
  main_setup b f argv =
  (Exit (-1), g, mkDevices (Some Opened) None,
   out ++ [EnumerateDevices; EnumerateDevices;
           GetDeviceSerialNumber 0; GetDeviceSerialNumber 1;
           OpenDevice s0 (pipeline_for_1 l) (Some DevA);
           OpenDevice s1 (pipeline_for_2 l) None;
           Cout "failure opening device or devices!"])%list.
Proof.
  intros Hparse Hstreams Hconn H0 H1.
  rewrite (main_setup_pair b f argv g l out s0 s1 more Hparse Hstreams Hconn).
  unfold openDevice. rewrite H0, H1. cbn.
  rewrite <- !app_assoc. reflexivity.
Qed.

(** C5, what the code does instead: two sensors are connected, the
    first opens and the second does not.  [main] returns -1 after its
    message; its trace holds the two open calls and no close call, and the
    first device is left [Opened]. *)
Theorem partial_open_failure_leaves_device_open :
  main_setup desktop_build second_refuses ["Protonect"]
  = (Exit (-1), initial_globals, mkDevices (Some Opened) None,
     [EnumerateDevices; EnumerateDevices;
      GetDeviceSerialNumber 0; GetDeviceSerialNumber 1;
      OpenDevice "011054343347" None (Some DevA);
      OpenDevice "003726334247" None None;
      Cout "failure opening device or devices!"])
  /\ count is_close
           (trace_of (main_setup desktop_build second_refuses ["Protonect"]))
     = 0
  /\ is_open (dev_get (third_of (main_setup desktop_build second_refuses
                                            ["Protonect"])) DevA) = true.
Proof. repeat split; vm_compute; reflexivity. Qed.

(** ** The pause trigger *)

(** With both [devtopause] pointers set, the handler itself makes two
    device calls: two stops when not paused, two starts when paused. *)
Lemma sigusr1_handler_calls (hw1 hw2 : bool) (g : Globals) (h : Devices)
  (p1 p2 : DevPtr) :
  devtopause_1 g = Some p1 ->
  devtopause_2 g = Some p2 ->
  snd (sigusr1_handler hw1 hw2 g h)
  = (if protonect_paused g then [DevStart p1; DevStart p2]
     else [DevStop p1; DevStop p2]).
Proof.
  intros H1 H2. unfold sigusr1_handler. rewrite H1, H2.
  destruct (protonect_paused g); reflexivity.
Qed.

(** C1, what the code does instead: SIGUSR1 arrives while both devices
    stream.  The handler does not stop at flipping [protonect_paused]: the
    two [stop] calls are made by the handler, on the signal path, and the
    next SIGUSR1 makes the two [start] calls in the same way. *)
Theorem pause_handler_calls_stop_and_start_itself :
  sigusr1_handler true true launched_globals both_streaming
  = (set_protonect_paused true launched_globals, both_opened,
     [DevStop DevA; DevStop DevB])
  /\ count is_start_or_stop
           (snd (sigusr1_handler true true launched_globals both_streaming))
     = 2
  /\ sigusr1_handler true true
       (set_protonect_paused true launched_globals) both_opened
     = (launched_globals, both_streaming, [DevStart DevA; DevStart DevB]).
Proof. repeat split; vm_compute; reflexivity. Qed.

(** The flag itself always comes back after two triggers. *)
Lemma pause_twice_flag (hw1 hw2 : bool) (g : Globals) (h : Devices) :
  fst (pause_twice hw1 hw2 g h) = g.
Proof.
  unfold pause_twice, sigusr1_handler.
  destruct g as [sd ve er ed fm pa [p1|] [p2|]]; cbn; try reflexivity.
  destruct pa; cbn; reflexivity.
Qed.

(** C7, counterexample: the session state in which [main] has launched the
    workers (both devices opened, handlers installed, not paused) and no
    worker has started its device yet.  Two triggers leave both devices
    streaming, which they were not. *)
Lemma pause_twice_before_start_changes_streaming :
  globals_of (main_setup desktop_build three_sensors ["Protonect"])
  = launched_globals
  /\ third_of (main_setup desktop_build three_sensors ["Protonect"])
     = both_opened
  /\ is_open (dev_get both_opened DevA) = true
  /\ is_open (dev_get both_opened DevB) = true
  /\ snd (pause_twice true true launched_globals both_opened) = both_streaming
  /\ snd (pause_twice true true launched_globals both_opened) <> both_opened.
Proof. repeat split; try (vm_compute; reflexivity). discriminate. Qed.

(** The same failure after the workers have started their devices with a
    selection of streams ([-norgb]): the handler resumes with [start], which
    turns on both streams. *)
Lemma pause_twice_forgets_stream_selection :
  snd (pause_twice true true launched_globals both_depth_only)
  = both_streaming.
Proof. reflexivity. Qed.

(** C7, amended: two triggers in a row bring all the globals, so also
    [protonect_paused], back to what they were; and when the devices were in
    the condition the flag stands for, they bring both devices back to their
    streaming state as well. *)
Theorem pause_twice_restores (hw1 hw2 : bool) (g : Globals) (h : Devices)
  (p1 p2 : DevPtr) :
  devtopause_1 g = Some p1 ->
  devtopause_2 g = Some p2 ->
  fst (pause_twice hw1 hw2 g h) = g
  /\ (matches_flag hw1 hw2 g h p1 p2 -> snd (pause_twice hw1 hw2 g h) = h).
Proof.
  intros H1 H2. split; [apply pause_twice_flag|].
  intros Hm. unfold pause_twice, sigusr1_handler.
  destruct g as [sd ve er ed fm pa q1 q2]. cbn in H1, H2. subst q1 q2.
  destruct h as [a b]. unfold matches_flag in Hm. cbn in Hm.
  destruct Hm as [(Hp & Ha & Hb & -> & ->) | (Hp & Ha & Hb)]; subst pa;
    destruct p1, p2; cbn in Ha, Hb; subst;
    try reflexivity; destruct hw1, hw2; reflexivity.
Qed.

(** The theorem on the running session (both devices streaming color and
    depth, not paused). *)
Lemma pause_twice_restores_witness :
  pause_twice true true launched_globals both_streaming
  = (launched_globals, both_streaming).
Proof.
  destruct (pause_twice_restores true true launched_globals both_streaming
              DevA DevB eq_refl eq_refl) as [Hg Hh].
  rewrite (surjective_pairing (pause_twice _ _ _ _)), Hg, Hh.
  - reflexivity.
  - left. repeat split.
Defined.

(** ** The Capture Worker *)

Lemma count_app (f : Event -> bool) (tr1 tr2 : list Event) :
  count f (tr1 ++ tr2) = count f tr1 + count f tr2.
Proof.
  unfold count. rewrite filter_app, length_app. lia.
Qed.

Lemma count_nil (f : Event -> bool) : count f [] = 0.
Proof. reflexivity. Qed.

Lemma count_cons (f : Event -> bool) (e : Event) (tr : list Event) :
  count f (e :: tr) = (if f e then 1 else 0) + count f tr.
Proof.
  unfold count. simpl. destruct (f e); simpl List.length; lia.
Qed.

Lemma listener_run_app (tr1 tr2 : list Event) :
  forall lent : bool,
    listener_run lent (tr1 ++ tr2) =
    match listener_run lent tr1 with
    | Some lent' => listener_run lent' tr2
    | None => None
    end.
Proof.
  induction tr1 as [|e tr1 IH]; intros lent; simpl; [reflexivity|].
  destruct (listener_step lent e); [apply IH | reflexivity].
Qed.

(** One pass of the body, seen from the listener: it starts and ends with
    nothing lent, it makes exactly one wait, and it makes exactly one
    release if the wait delivered a FrameSet and none if it did not. *)
Lemma loop_body_listener (b : Build) (dev : DevPtr) (it : Iter) (g : Globals)
  (framecount : Z) :
  let tr := trace_of (loop_body b dev it g framecount) in
  listener_run false tr = Some false
  /\ count is_wait tr = 1
  /\ count is_acquire tr = (if frame_arrives it then 1 else 0)
  /\ count is_release tr = (if frame_arrives it then 1 else 0).
Proof.
  unfold loop_body, viewer_part.
  destruct (frame_arrives it); cbn [negb]; cbv iota.
  - split_ifs; cbn; repeat split; reflexivity.
  - cbn. repeat split; reflexivity.
Qed.

(** A pass can block for ten seconds at most. *)
Lemma loop_body_blocking (b : Build) (dev : DevPtr) (it : Iter) (g : Globals)
  (framecount : Z) :
  blocking_budget (trace_of (loop_body b dev it g framecount)) = 10 * 1000.
Proof.
  unfold loop_body, viewer_part.
  destruct (frame_arrives it); cbn [negb]; cbv iota; [|reflexivity].
  split_ifs; reflexivity.
Qed.

(** A pass continues unless the wait timed out. *)
Lemma loop_body_continues (b : Build) (dev : DevPtr) (it : Iter) (g : Globals)
  (framecount : Z) :
  outcome_of (loop_body b dev it g framecount) = frame_arrives it.
Proof.
  unfold loop_body, viewer_part.
  destruct (frame_arrives it); cbn [negb]; cbv iota; [|reflexivity].
  split_ifs; reflexivity.
Qed.

Lemma running_loop_listener (b : Build) (dev : DevPtr) (its : list Iter) :
  forall (g : Globals) (framecount : Z),
    let tr := trace_of (running_loop b dev its g framecount) in
    listener_run false tr = Some false
    /\ count is_release tr = count is_acquire tr.
Proof.
  induction its as [|it its IH]; intros g n; simpl.
  - destruct (loop_test g n); split; reflexivity.
  - destruct (loop_test g n); [|split; reflexivity].
    pose proof (loop_body_listener b dev it g n) as Hb.
    destruct (loop_body b dev it g n) as [[[cont g1] n1] out].
    cbv zeta in Hb. unfold trace_of in Hb. cbn [snd] in Hb.
    destruct Hb as (Hrun & _ & Hacq & Hrel).
    destruct cont.
    + specialize (IH g1 n1). cbv zeta in IH.
      destruct (running_loop b dev its g1 n1) as [[[r g2] n2] out'].
      unfold trace_of in *. cbn [snd] in *.
      destruct IH as [IHrun IHcnt].
      rewrite listener_run_app, Hrun, !count_app. split; [exact IHrun | lia].
    + unfold trace_of. cbn [snd]. split; [exact Hrun | lia].
Qed.

(** C2: every FrameSet a worker acquires is released exactly once before
    the next wait, with or without the viewer.  Per pass of the loop body:
    the pass makes one wait, and one release exactly when the wait delivered
    a FrameSet.  For the loop and for the whole of [running], whatever the
    build, the globals and the course of events: the listener never sees a
    wait while a set is lent nor a release while none is lent, nothing is
    lent at the end, and releases and acquisitions are equal in number. *)
Theorem every_frameset_is_released_exactly_once
  (b : Build) (hw : bool) (dev : DevPtr) (it : Iter) (its : list Iter)
  (g : Globals) (h : Devices) (framecount : Z) :
  (let tr := trace_of (loop_body b dev it g framecount) in
   listener_run false tr = Some false
   /\ count is_wait tr = 1
   /\ count is_release tr = (if frame_arrives it then 1 else 0))
  /\ (let tr := trace_of (running_loop b dev its g framecount) in
      listener_run false tr = Some false
      /\ count is_release tr = count is_acquire tr)
  /\ (let tr := snd (running b hw its dev g h) in
      listener_run false tr = Some false
      /\ count is_release tr = count is_acquire tr).
Proof.
  split; [|split].
  - pose proof (loop_body_listener b dev it g framecount) as H.
    cbv zeta in *. tauto.
  - apply running_loop_listener.
  - unfold running.
    destruct (enable_rgb g && enable_depth g);
      [destruct (dev_start hw dev h) as [h1 ok]
      |destruct (dev_startStreams hw (enable_rgb g) (enable_depth g) dev h)
         as [h1 ok]];
      (destruct ok; cbn [negb]; cbv iota; [|split; reflexivity]);
      destruct (EXAMPLES_WITH_OPENGL_SUPPORT b);
      try destruct (viewer_enabled g);
      match goal with
      | |- context [running_loop ?b' ?d ?i ?g' ?n] =>
          pose proof (running_loop_listener b' d i g' n) as Hl;
          destruct (running_loop b' d i g' n) as [[[r g1] n1] out']
      end;
      cbv zeta in Hl; unfold trace_of in Hl; cbn [snd] in Hl;
      destruct Hl as [Hl1 Hl2];
      destruct r; cbn [snd];
      rewrite <- ?app_assoc; cbn [app listener_run listener_step];
      rewrite ?listener_run_app, ?Hl1;
      repeat rewrite ?count_cons, ?count_app; cbn;
      (split; [reflexivity | lia]).
Qed.

Lemma to_size_t_minus_1 : to_size_t (-1) = SIZE_MAX.
Proof. reflexivity. Qed.

(** With the flag set, the loop test fails and the loop is left at once,
    with no event, whatever passes the environment would still offer. *)
Lemma running_loop_exits_on_shutdown (b : Build) (dev : DevPtr)
  (its : list Iter) (g : Globals) (framecount : Z) :
  protonect_shutdown g = true ->
  running_loop b dev its g framecount = (LoopEnds, g, framecount, []).
Proof.
  intros H. destruct its; simpl; unfold loop_test; rewrite H; reflexivity.
Qed.

(** A worker that finds [protonect_shutdown] set when it finishes a pass
    terminates without another wait.  Let a pass start at [(g, n)] with
    the loop test true and end, after the release, at [(g1, n1)] with the
    flag set.  Then the loop continued from [(g1, n1)] ends at once with no
    event, so the run from [(g, n)] consists of that one pass, whatever
    further passes were on offer; and the pass holds exactly one wait, of
    at most ten seconds, so the test is made once between two waits.  A
    request that is in the flag at the test is therefore acted on; one that
    was overwritten before the test is not (see the end of this section). *)
Lemma shutdown_stops_before_next_wait (b : Build) (dev : DevPtr)
  (it : Iter) (its : list Iter) (g g1 : Globals) (n n1 : Z)
  (out : list Event) :
  loop_test g n = true ->
  loop_body b dev it g n = (true, g1, n1, out) ->
  protonect_shutdown g1 = true ->
  running_loop b dev its g1 n1 = (LoopEnds, g1, n1, [])
  /\ running_loop b dev (it :: its) g n = (LoopEnds, g1, n1, out)
  /\ count is_wait out = 1
  /\ blocking_budget out = 10 * 1000.
Proof.
  intros Htest Hbody Hflag.
  pose proof (running_loop_exits_on_shutdown b dev its g1 n1 Hflag) as Hexit.
  split; [exact Hexit | split; [|split]].
  - cbn [running_loop]. rewrite Htest, Hbody, Hexit, app_nil_r. reflexivity.
  - pose proof (loop_body_listener b dev it g n) as H.
    rewrite Hbody in H. cbv zeta in H. unfold trace_of in H. cbn [snd] in H.
    tauto.
  - pose proof (loop_body_blocking b dev it g n) as H.
    rewrite Hbody in H. exact H.
Qed.

(** The lemma on a pass in which the viewer's window is closed: the two
    passes still on offer are not taken. *)
Lemma shutdown_stops_before_next_wait_witness :
  outcome_of (running_loop desktop_build DevA [viewer_close; calm; calm]
                           launched_globals 0) = LoopEnds
  /\ count is_wait
       (trace_of (running_loop desktop_build DevA [viewer_close; calm; calm]
                               launched_globals 0)) = 1.
Proof.
  destruct (shutdown_stops_before_next_wait
              desktop_build DevA viewer_close [calm; calm]
              launched_globals (set_protonect_shutdown true launched_globals)
              0 1
              [WaitForNewFrame DevA 10000 true; RegistrationApply DevA;
               ViewerAddFrame DevA "RGB"; ViewerAddFrame DevA "ir";
               ViewerAddFrame DevA "depth"; ViewerAddFrame DevA "registered";
               ViewerRender DevA true; ListenerRelease DevA]
              eq_refl eq_refl eq_refl) as (_ & H & Hc & _).
  rewrite H. split; [reflexivity | exact Hc].
Defined.

(** An undisturbed pass from a state without a shutdown request: it
    continues, leaves the flag clear and [framemax] alone, counts one frame
    and acquires one FrameSet. *)
Lemma loop_body_undisturbed (b : Build) (dev : DevPtr) (it : Iter)
  (g : Globals) (framecount : Z) :
  undisturbed it = true ->
  protonect_shutdown g = false ->
  exists g1 out,
    loop_body b dev it g framecount
    = (true, g1, to_size_t (framecount + 1), out)
    /\ protonect_shutdown g1 = false
    /\ framemax g1 = framemax g
    /\ count is_acquire out = 1.
Proof.
  intros Hu Hs.
  pose proof (loop_body_listener b dev it g framecount) as Hl.
  cbv zeta in Hl. destruct Hl as (_ & _ & Hacq & _).
  unfold undisturbed in Hu.
  destruct it as [fa vc dw dr ab]. cbn in Hu, Hacq.
  destruct fa; [|discriminate]. destruct vc; [discriminate|].
  destruct g as [sd ve er ed fm pa q1 q2]. cbn in Hs. subst sd.
  revert Hacq. unfold loop_body, viewer_part. cbn [negb frame_arrives].
  cbv iota.
  destruct dw as [[|]|]; try discriminate;
    destruct dr as [[|]|]; try discriminate;
    destruct ab as [[|]|]; try discriminate; cbn;
    destruct ve; cbn;
    try destruct (EXAMPLES_WITH_OPENGL_SUPPORT b); cbn;
    intros Hacq; eexists; eexists;
    (split; [reflexivity | split; [reflexivity | split; [reflexivity |]]]);
    exact Hacq.
Qed.

Lemma loop_test_at_limit (g : Globals) :
  protonect_shutdown g = false ->
  framemax g < SIZE_MAX ->
  loop_test g (framemax g) = false.
Proof.
  intros Hs Hlt. unfold loop_test. rewrite Hs, to_size_t_minus_1.
  replace (framemax g =? SIZE_MAX) with false
    by (symmetry; apply Z.eqb_neq; lia).
  rewrite Z.ltb_irrefl. reflexivity.
Qed.

Lemma loop_test_below_limit (g : Globals) (c : Z) :
  protonect_shutdown g = false ->
  c < framemax g ->
  loop_test g c = true.
Proof.
  intros Hs Hlt. unfold loop_test. rewrite Hs.
  apply Z.ltb_lt in Hlt. rewrite Hlt, orb_true_r. reflexivity.
Qed.

Lemma loop_test_unlimited (g : Globals) (c : Z) :
  protonect_shutdown g = false ->
  framemax g = to_size_t (-1) ->
  loop_test g c = true.
Proof.
  intros Hs Hm. unfold loop_test. rewrite Hs, Hm, Z.eqb_refl. reflexivity.
Qed.

(** With a limit [N] and [c] frames counted, undisturbed passes bring the
    count to [N] and the loop ends there. *)
Lemma running_loop_to_limit (b : Build) (dev : DevPtr) (N : Z) :
  forall (its : list Iter) (g : Globals) (c : Z),
    protonect_shutdown g = false ->
    framemax g = N ->
    0 <= c <= N ->
    N < SIZE_MAX ->
    forallb undisturbed its = true ->
    N - c <= Z.of_nat (List.length its) ->
    exists g' tr,
      running_loop b dev its g c = (LoopEnds, g', N, tr)
      /\ count is_acquire tr = N - c.
Proof.
  induction its as [|it its IH]; intros g c Hs Hm Hc HN Hu Hlen.
  - simpl in Hlen. assert (c = N) by lia. subst c.
    exists g, []. cbn [running_loop]. rewrite <- Hm at 1.
    rewrite loop_test_at_limit by (try assumption; lia).
    split; [reflexivity | unfold count; simpl; lia].
  - destruct (Z.eq_dec c N) as [->|Hne].
    + exists g, []. cbn [running_loop]. rewrite <- Hm at 1.
      rewrite loop_test_at_limit by (try assumption; lia).
      split; [reflexivity | unfold count; simpl; lia].
    + cbn [forallb] in Hu. apply andb_true_iff in Hu. destruct Hu as [Hu1 Hu2].
      destruct (loop_body_undisturbed b dev it g c Hu1 Hs)
        as (g1 & out & Hb & Hs1 & Hm1 & Hacq).
      assert (Hwrap : to_size_t (c + 1) = c + 1).
      { unfold to_size_t. apply Z.mod_small. lia. }
      rewrite Hwrap in Hb.
      destruct (IH g1 (c + 1)) as (g' & tr & Hrun & Hcnt);
        try assumption; try lia.
      { cbn [List.length] in Hlen. lia. }
      exists g', (out ++ tr)%list. cbn [running_loop].
      rewrite loop_test_below_limit by (try assumption; lia).
      rewrite Hb, Hrun. split; [reflexivity|].
      rewrite count_app. lia.
Qed.

(** Without a limit the count never ends the loop: every undisturbed pass
    on offer is taken, and the counter wraps around at 2^64. *)
Lemma running_loop_unlimited (b : Build) (dev : DevPtr) :
  forall (its : list Iter) (g : Globals) (c : Z),
    protonect_shutdown g = false ->
    framemax g = to_size_t (-1) ->
    0 <= c <= SIZE_MAX ->
    forallb undisturbed its = true ->
    exists g' tr,
      running_loop b dev its g c
      = (StillRunning, g', to_size_t (c + Z.of_nat (List.length its)), tr)
      /\ count is_acquire tr = Z.of_nat (List.length its).
Proof.
  induction its as [|it its IH]; intros g c Hs Hm Hc Hu.
  - exists g, []. cbn [running_loop].
    rewrite loop_test_unlimited by assumption.
    cbn [List.length]. rewrite Z.add_0_r.
    unfold to_size_t. rewrite Z.mod_small by lia.
    split; reflexivity.
  - cbn [forallb] in Hu. apply andb_true_iff in Hu. destruct Hu as [Hu1 Hu2].
    destruct (loop_body_undisturbed b dev it g c Hu1 Hs)
      as (g1 & out & Hb & Hs1 & Hm1 & Hacq).
    destruct (IH g1 (to_size_t (c + 1))) as (g' & tr & Hrun & Hcnt);
      try assumption; try congruence.
    { unfold to_size_t.
      pose proof (Z.mod_pos_bound (c + 1) (SIZE_MAX + 1)) as Hb'.
      unfold SIZE_MAX in *. lia. }
    exists g', (out ++ tr)%list. cbn [running_loop].
    rewrite loop_test_unlimited by assumption.
    rewrite Hb, Hrun. split.
    + f_equal. f_equal. unfold to_size_t.
      rewrite Zplus_mod_idemp_l. f_equal.
      cbn [List.length]. lia.
    + rewrite count_app. cbn [List.length]. lia.
Qed.

(** [running] once the device has started: the prologue, the loop, and
    [delete registration] only when the loop is left by its test. *)
Lemma running_unfold (b : Build) (its : list Iter) (dev : DevPtr)
  (g : Globals) (h : Devices) :
  dev_get h dev = Some Opened ->
  running b true its dev g h =
  (let h' := dev_set h dev (Streaming (enable_rgb g) (enable_depth g)) in
   match running_loop b dev its (worker_loop_globals b g) 0 with
   | (LoopEnds, g1, n, out') =>
       (Finished, g1, h', n,
        (worker_prologue b dev g ++ out' ++ [DeleteRegistration dev])%list)
   | (TimedOut, g1, n, out') =>
       (WaitTimedOut, g1, h', n, (worker_prologue b dev g ++ out')%list)
   | (StillRunning, g1, n, out') =>
       (Unfinished, g1, h', n, (worker_prologue b dev g ++ out')%list)
   end).
Proof.
  intros Hopen.
  unfold running, dev_start, dev_startStreams, worker_prologue,
    worker_loop_globals.
  rewrite Hopen.
  destruct (enable_rgb g) eqn:Er, (enable_depth g) eqn:Ed;
    cbn [andb negb]; cbv iota zeta;
    destruct (EXAMPLES_WITH_OPENGL_SUPPORT b) eqn:Eb; cbn [andb];
    try destruct (viewer_enabled g) eqn:Ev;
    match goal with
    | |- context [running_loop ?b' ?d ?i ?g0 ?n] =>
        destruct (running_loop b' d i g0 n) as [[[r g1] n1] out']
    end;
    destruct r; cbn [app]; rewrite <- ?app_assoc; reflexivity.
Qed.

(** [running] when the device does not start. *)
Lemma running_not_started (b : Build) (hw : bool) (its : list Iter)
  (dev : DevPtr) (g : Globals) (h : Devices) :
  dev_get h dev <> Some Opened \/ hw = false ->
  running b hw its dev g h =
  (StartFailed, g, h, 0,
   if enable_rgb g && enable_depth g then [DevStart dev]
   else [DevStartStreams dev (enable_rgb g) (enable_depth g)]).
Proof.
  intros H. unfold running, dev_start, dev_startStreams.
  destruct (dev_get h dev) as [[| |]|] eqn:Hd;
    destruct (enable_rgb g && enable_depth g); cbn;
    try reflexivity;
    destruct H as [H | ->]; try congruence; try reflexivity;
    destruct hw; congruence || reflexivity.
Qed.

Lemma worker_prologue_calls (b : Build) (dev : DevPtr) (g : Globals) :
  count is_acquire (worker_prologue b dev g) = 0
  /\ count is_release (worker_prologue b dev g) = 0
  /\ count is_apply (worker_prologue b dev g) = 0
  /\ count is_stop_or_close (worker_prologue b dev g) = 0
  /\ (viewer_enabled g = false \/ EXAMPLES_WITH_OPENGL_SUPPORT b = false ->
      count is_viewer_call (worker_prologue b dev g) = 0).
Proof.
  unfold worker_prologue.
  destruct (enable_rgb g && enable_depth g),
    (EXAMPLES_WITH_OPENGL_SUPPORT b), (viewer_enabled g); cbn;
    repeat split; try reflexivity; intros [?|?]; discriminate.
Qed.

(** The same for the whole of [running] on an opened device that starts:
    it returns by falling off its end, having counted [N] frames. *)
Lemma running_finishes_at_limit (b : Build) (dev : DevPtr) (its : list Iter)
  (g : Globals) (h : Devices) (N : Z) :
  dev_get h dev = Some Opened ->
  protonect_shutdown g = false ->
  framemax g = N ->
  0 < N < SIZE_MAX ->
  forallb undisturbed its = true ->
  N <= Z.of_nat (List.length its) ->
  exists g' h' tr,
    running b true its dev g h = (Finished, g', h', N, tr)
    /\ count is_acquire tr = N.
Proof.
  intros Hopen Hs Hm HN Hu Hlen.
  unfold running, dev_start, dev_startStreams. rewrite Hopen.
  destruct (enable_rgb g && enable_depth g); cbn [negb]; cbv iota;
    destruct (EXAMPLES_WITH_OPENGL_SUPPORT b);
    try destruct (viewer_enabled g);
    match goal with
    | |- context [running_loop ?b' ?d ?i ?g0 ?n] =>
        destruct (running_loop_to_limit b' d N i g0 n)
          as (g' & tr & Hrun & Hc);
        try assumption; try lia;
        rewrite Hrun
    end;
    eexists; eexists; eexists; (split; [reflexivity|]);
    repeat rewrite ?count_cons, ?count_app; cbn; lia.
Qed.

(** C8: the frame limit is exact.  Take a worker whose device starts,
    whose waits all deliver and which never sees a shutdown request.  For a
    limit [N] with [0 < N] other than the "no limit" value [(size_t)-1],
    [running] starts its count at 0, acquires and releases exactly [N]
    FrameSets, leaves its loop by the loop test with [framecount = N] and
    returns by falling off its end; nothing else has to stop it.  With
    [framemax] at [(size_t)-1] the count never ends the loop: however many
    such passes are on offer, all are taken and the worker is still
    running.  The same is stated for the loop alone, entered with a count
    of 0. *)
Theorem frame_limit_is_exact (b : Build) (dev : DevPtr) (its : list Iter)
  (g : Globals) (h : Devices) (N : Z) :
  dev_get h dev = Some Opened ->
  protonect_shutdown g = false ->
  forallb undisturbed its = true ->
  (framemax g = N -> 0 < N < SIZE_MAX -> N <= Z.of_nat (List.length its) ->
   (exists g' h' tr,
      running b true its dev g h = (Finished, g', h', N, tr)
      /\ count is_acquire tr = N
      /\ count is_release tr = N)
   /\ (exists g' tr,
         running_loop b dev its g 0 = (LoopEnds, g', N, tr)
         /\ count is_acquire tr = N
         /\ count is_release tr = N))
  /\ (framemax g = to_size_t (-1) ->
      (exists g' h' tr,
         running b true its dev g h
         = (Unfinished, g', h', to_size_t (Z.of_nat (List.length its)), tr)
         /\ count is_acquire tr = Z.of_nat (List.length its))
      /\ (exists g' tr,
            running_loop b dev its g 0
            = (StillRunning, g', to_size_t (Z.of_nat (List.length its)), tr)
            /\ count is_acquire tr = Z.of_nat (List.length its))).
Proof.
  intros Hopen Hs Hu.
  assert (Hs0 : protonect_shutdown (worker_loop_globals b g) = false)
    by (unfold worker_loop_globals;
        destruct (EXAMPLES_WITH_OPENGL_SUPPORT b); exact Hs).
  assert (Hm0 : framemax (worker_loop_globals b g) = framemax g)
    by (unfold worker_loop_globals;
        destruct (EXAMPLES_WITH_OPENGL_SUPPORT b); reflexivity).
  pose proof (worker_prologue_calls b dev g) as (P1 & P2 & _).
  split.
  - intros Hm HN Hlen. split.
    + destruct (running_loop_to_limit b dev N its (worker_loop_globals b g) 0)
        as (g' & tr & Hrun & Hc); try assumption; try lia; try congruence.
      pose proof (running_loop_listener b dev its (worker_loop_globals b g) 0)
        as Hl.
      rewrite Hrun in Hl. cbv zeta in Hl. unfold trace_of in Hl.
      cbn [snd] in Hl. destruct Hl as [_ Hrel].
      rewrite (running_unfold b its dev g h Hopen). cbv zeta. rewrite Hrun.
      eexists; eexists; eexists. split; [reflexivity|].
      rewrite !count_app, P1, P2, ?count_cons, ?count_nil.
      cbn [is_acquire is_release]. lia.
    + destruct (running_loop_to_limit b dev N its g 0)
        as (g' & tr & Hrun & Hc); try assumption; try lia.
      exists g', tr. split; [exact Hrun|].
      pose proof (running_loop_listener b dev its g 0) as Hl.
      rewrite Hrun in Hl. cbv zeta in Hl. unfold trace_of in Hl.
      cbn [snd] in Hl. lia.
  - intros Hm. split.
    + destruct (running_loop_unlimited b dev its (worker_loop_globals b g) 0)
        as (g' & tr & Hrun & Hc);
        try assumption; try congruence; [unfold SIZE_MAX; lia|].
      rewrite (running_unfold b its dev g h Hopen). cbv zeta. rewrite Hrun.
      eexists; eexists; eexists. split; [reflexivity|].
      rewrite !count_app, P1. lia.
    + destruct (running_loop_unlimited b dev its g 0)
        as (g' & tr & Hrun & Hc);
        try assumption; [unfold SIZE_MAX; lia|].
      exists g', tr. split; [exact Hrun | exact Hc].
Qed.

(** The theorem on a headless worker limited to three frames with five
    passes on offer, and on an unlimited one with the same five passes. *)
Lemma frame_limit_is_exact_witness :
  (exists g' h' tr,
     running desktop_build true [calm; calm; calm; calm; calm] DevA
             three_frames_headless both_opened = (Finished, g', h', 3, tr)
     /\ count is_acquire tr = 3 /\ count is_release tr = 3)
  /\ (exists g' h' tr,
        running desktop_build true [calm; calm; calm; calm; calm] DevA
                launched_globals both_opened = (Unfinished, g', h', 5, tr)
        /\ count is_acquire tr = 5).
Proof.
  split.
  - apply (frame_limit_is_exact desktop_build DevA
             [calm; calm; calm; calm; calm] three_frames_headless both_opened
             3 eq_refl eq_refl eq_refl).
    + reflexivity.
    + unfold SIZE_MAX. lia.
    + simpl. lia.
  - apply (frame_limit_is_exact desktop_build DevA
             [calm; calm; calm; calm; calm] launched_globals both_opened
             3 eq_refl eq_refl eq_refl).
    reflexivity.
Defined.

(** ** The shutdown flag *)

(** The handler only ever sets the flag. *)
Lemma sigint_handler_sets (g : Globals) :
  protonect_shutdown (sigint_handler g) = true.
Proof. reflexivity. Qed.

(** Line 417 by itself keeps a flag that is set: if the worker reads
    [true] it writes [true] back, whatever the others stored meanwhile. *)
Lemma viewer_part_keeps_flag_read_as_set (b : Build) (dev : DevPtr)
  (it : Iter) (g : Globals) :
  EXAMPLES_WITH_OPENGL_SUPPORT b = true ->
  protonect_shutdown g = true ->
  protonect_shutdown (fst (viewer_part b dev it g)) = true.
Proof.
  intros Hb H. unfold viewer_part. rewrite Hb, H. reflexivity.
Qed.

(** A request that is in the flag when the frame has arrived survives the
    pass, provided no store lands in the render window and nobody clears
    the flag afterwards: the render window is the only place where the
    worker itself loses a request. *)
Lemma request_outside_render_window_is_kept (b : Build) (dev : DevPtr)
  (it : Iter) (g : Globals) (framecount : Z) :
  frame_arrives it = true ->
  during_render it = None ->
  after_body it <> Some false ->
  protonect_shutdown (interfere (during_wait it) g) = true ->
  protonect_shutdown (globals_of (loop_body b dev it g framecount)) = true.
Proof.
  intros Hf Hr Ha Hs. unfold loop_body, viewer_part.
  rewrite Hf, Hr. cbn [negb interfere]. cbv iota.
  remember (interfere (during_wait it) g) as g0 eqn:Hg0.
  destruct g0 as [sd ve er ed fm pa q1 q2]. cbn in Hs. subst sd.
  destruct (after_body it) as [[|]|]; [|congruence|];
    destruct ve; cbn; try destruct (EXAMPLES_WITH_OPENGL_SUPPORT b);
    reflexivity.
Qed.

(** C3, what the code does instead: SIGINT is delivered while a worker
    is inside [viewer.render()].  The store the worker meets in that window
    is the handler's, and it sets the flag.  The worker had read the flag as
    [false] before the call; the viewer does not ask to close; so the worker
    writes [false || false] over the handler's [true].  The flag is clear
    again at the end of the pass, and the worker goes on to wait for and
    acquire the next two FrameSets on offer. *)
Theorem sigint_during_render_is_overwritten :
  interfere (during_render sigint_in_render) launched_globals
  = sigint_handler launched_globals
  /\ protonect_shutdown (sigint_handler launched_globals) = true
  /\ viewer_part desktop_build DevA sigint_in_render launched_globals
     = (set_protonect_shutdown false (sigint_handler launched_globals),
        [ViewerAddFrame DevA "RGB"; ViewerAddFrame DevA "ir";
         ViewerAddFrame DevA "depth"; ViewerAddFrame DevA "registered";
         ViewerRender DevA false])
  /\ protonect_shutdown
       (globals_of (loop_body desktop_build DevA sigint_in_render
                              launched_globals 0)) = false
  /\ outcome_of (running_loop desktop_build DevA
                              [sigint_in_render; calm; calm]
                              launched_globals 0) = StillRunning
  /\ count is_acquire
       (trace_of (running_loop desktop_build DevA
                               [sigint_in_render; calm; calm]
                               launched_globals 0)) = 3.
Proof. repeat split. Qed.

Lemma blocking_budget_app (tr1 tr2 : list Event) :
  blocking_budget (tr1 ++ tr2) = blocking_budget tr1 + blocking_budget tr2.
Proof.
  induction tr1 as [|e tr1 IH]; [reflexivity|].
  destruct e; cbn [app blocking_budget]; rewrite IH; lia.
Qed.

(** Over any run of the loop the worker can block for ten seconds per
    wait. *)
Lemma running_loop_blocking (b : Build) (dev : DevPtr) (its : list Iter) :
  forall (g : Globals) (framecount : Z),
    blocking_budget (trace_of (running_loop b dev its g framecount))
    = 10 * 1000 * count is_wait (trace_of (running_loop b dev its g framecount)).
Proof.
  induction its as [|it its IH]; intros g n; cbn [running_loop].
  - destruct (loop_test g n); reflexivity.
  - destruct (loop_test g n); [|reflexivity].
    pose proof (loop_body_blocking b dev it g n) as Hb.
    pose proof (loop_body_listener b dev it g n) as Hl.
    destruct (loop_body b dev it g n) as [[[cont g1] n1] out].
    cbv zeta in Hl. unfold trace_of in *. cbn [snd] in *.
    destruct Hl as (_ & Hw & _).
    destruct cont; [|cbn [snd]; lia].
    specialize (IH g1 n1).
    destruct (running_loop b dev its g1 n1) as [[[r g2] n2] out'].
    cbn [snd] in *. rewrite blocking_budget_app, count_app. lia.
Qed.

Lemma acquires_are_waits (tr : list Event) :
  count is_acquire tr <= count is_wait tr.
Proof.
  induction tr as [|e tr IH]; [reflexivity|].
  rewrite !count_cons. destruct e; cbn [is_acquire is_wait]; try lia.
  destruct got; lia.
Qed.

Lemma calm_passes_undisturbed (k : nat) :
  forallb undisturbed (repeat calm k) = true.
Proof.
  induction k as [|k IH]; [reflexivity | exact IH].
Qed.

(** C4, what the code does instead: SIGINT is delivered between two waits
    of a worker, while it is inside [viewer.render()], and [k] further
    frames are on their way.  The handler sets the flag; the worker, which
    had read it as clear, overwrites it; the loop test after the release
    finds it clear.  The worker does not terminate: it waits for and
    acquires all [k] further FrameSets and is still running, so the time it
    can stay blocked after the request is not one timeout of ten seconds
    but grows with [k]. *)
Theorem shutdown_request_in_render_window_is_not_acted_on (k : nat) :
  let its := sigint_in_render :: repeat calm k in
  protonect_shutdown
    (interfere (during_render sigint_in_render) launched_globals) = true
  /\ outcome_of (running_loop desktop_build DevA its launched_globals 0)
     = StillRunning
  /\ count is_acquire
       (trace_of (running_loop desktop_build DevA its launched_globals 0))
     = 1 + Z.of_nat k
  /\ 10 * 1000 * (1 + Z.of_nat k)
     <= blocking_budget
          (trace_of (running_loop desktop_build DevA its launched_globals 0))
  /\ worker_exit (running desktop_build true its DevA launched_globals
                          both_opened) = Unfinished
  /\ worker_count (running desktop_build true its DevA launched_globals
                           both_opened) = to_size_t (1 + Z.of_nat k).
Proof.
  cbv zeta.
  set (g1 := set_protonect_shutdown false (sigint_handler launched_globals)).
  set (out1 := [WaitForNewFrame DevA (10 * 1000) true; RegistrationApply DevA;
                ViewerAddFrame DevA "RGB"; ViewerAddFrame DevA "ir";
                ViewerAddFrame DevA "depth"; ViewerAddFrame DevA "registered";
                ViewerRender DevA false; ListenerRelease DevA]).
  assert (Hstep :
            running_loop desktop_build DevA (sigint_in_render :: repeat calm k)
                         launched_globals 0
            = (let '(r, g2, n2, out') :=
                 running_loop desktop_build DevA (repeat calm k) g1 1 in
               (r, g2, n2, (out1 ++ out')%list))) by reflexivity.
  destruct (running_loop_unlimited desktop_build DevA (repeat calm k) g1 1)
    as (g' & tr & Hrun & Hc);
    [reflexivity | reflexivity | unfold SIZE_MAX; lia
    | apply calm_passes_undisturbed |].
  rewrite repeat_length in Hrun, Hc.
  rewrite Hrun in Hstep.
  pose proof (running_loop_blocking desktop_build DevA
                (sigint_in_render :: repeat calm k) launched_globals 0) as Hb.
  pose proof (acquires_are_waits
                (trace_of (running_loop desktop_build DevA
                             (sigint_in_render :: repeat calm k)
                             launched_globals 0))) as Hle.
  rewrite (running_unfold desktop_build (sigint_in_render :: repeat calm k)
             DevA launched_globals both_opened eq_refl).
  cbv zeta.
  change (worker_loop_globals desktop_build launched_globals)
    with launched_globals.
  rewrite Hstep in *.
  unfold outcome_of, trace_of, worker_exit, worker_count in *.
  cbn [fst snd] in *.
  assert (Hacq : count is_acquire (out1 ++ tr) = 1 + Z.of_nat k)
    by (rewrite count_app, Hc; reflexivity).
  repeat split; try reflexivity; try exact Hacq; lia.
Qed.

(** * Further properties of the code *)

(** ** The argument loop, token by token *)

Lemma nth_error_middle {A : Type} (pre : list A) (x : A) (rest : list A) :
  nth_error (pre ++ x :: rest) (List.length pre) = Some x.
Proof.
  rewrite nth_error_app2 by lia. rewrite Nat.sub_diag. reflexivity.
Qed.

(** After a command line [pre] over which the loop ends normally, the loop
    over a longer command line goes on from the first new token with the
    state and the output that [pre] produced. *)
Lemma parse_args_append (b : Build) (pre suf : list string) (g : Globals)
  (l : Locals) (out : list Event) :
  pre <> [] ->
  parse_args b pre = (ArgsDone, g, l, out) ->
  parse_args b (pre ++ suf) =
  (let '(r, g2, l2, out2) :=
     arg_loop (S (List.length (pre ++ suf))) b (pre ++ suf)
              (List.length pre) g l in
   (r, g2, l2, (out ++ out2)%list)).
Proof.
  intros Hne Hpre. unfold parse_args in *.
  assert (Hlen : (1 <= List.length pre)%nat)
    by (destruct pre; [congruence | simpl; lia]).
  apply (arg_loop_extend b pre suf _ 1 _ g _ l out Hpre Hlen). lia.
Qed.

(** What one more token does, when its pass through the body returns. *)
Lemma parse_args_return (b : Build) (pre rest : list string) (tok : string)
  (g g1 : Globals) (l l1 : Locals) (out out1 : list Event) (c : Z) :
  pre <> [] ->
  parse_args b pre = (ArgsDone, g, l, out) ->
  arg_body b (pre ++ tok :: rest) (List.length pre) tok g l
  = (Return c, g1, l1, out1) ->
  parse_args b (pre ++ tok :: rest)
  = (ArgsReturn c, g1, l1, (out ++ out1)%list).
Proof.
  intros Hne Hpre Hbody.
  rewrite (parse_args_append b pre (tok :: rest) g l out Hne Hpre).
  cbn [arg_loop]. rewrite nth_error_middle, Hbody. reflexivity.
Qed.

(** What one more token does, when it is the last one and its pass through
    the body reaches [++argI] without having moved [argI]. *)
Lemma parse_args_last (b : Build) (pre : list string) (tok : string)
  (g g1 : Globals) (l l1 : Locals) (out out1 : list Event) :
  pre <> [] ->
  parse_args b pre = (ArgsDone, g, l, out) ->
  arg_body b (pre ++ [tok]) (List.length pre) tok g l
  = (Next (List.length pre), g1, l1, out1) ->
  parse_args b (pre ++ [tok]) = (ArgsDone, g1, l1, (out ++ out1)%list).
Proof.
  intros Hne Hpre Hbody.
  rewrite (parse_args_append b pre [tok] g l out Hne Hpre).
  cbn [arg_loop]. rewrite nth_error_middle, Hbody.
  rewrite length_app. cbn [List.length].
  replace (List.length pre + 1)%nat with (S (List.length pre)) by lia.
  cbn [arg_loop].
  replace (nth_error (pre ++ [tok]) (S (List.length pre))) with (@None string)
    by (symmetry; apply nth_error_None; rewrite length_app; simpl; lia).
  rewrite app_nil_r. reflexivity.
Qed.

(** X1: a help or version token in option position ends [main] with exit
    code 0, whatever tokens follow it and whatever was selected before it;
    nothing is printed for it and no device is enumerated or opened. *)
Theorem help_token_exits_with_zero (b : Build) (f : Freenect2)
  (pre rest : list string) (tok : string) (g : Globals) (l : Locals)
  (out : list Event) :
  pre <> [] ->
  parse_args b pre = (ArgsDone, g, l, out) ->
  In tok help_tokens ->
  parse_args b (pre ++ tok :: rest) = (ArgsReturn 0, g, l, out)
  /\ main_setup b f (pre ++ tok :: rest) = (Exit 0, g, no_devices, out).
Proof.
  intros Hne Hpre Hin.
  assert (Hp : parse_args b (pre ++ tok :: rest) = (ArgsReturn 0, g, l, out)).
  { rewrite <- (app_nil_r out).
    apply (parse_args_return b pre rest tok g g l l out [] 0 Hne Hpre).
    unfold help_tokens in Hin. cbn [In] in Hin.
    repeat (destruct Hin as [<- | Hin]; [reflexivity|]). contradiction. }
  split; [exact Hp|]. unfold main_setup. rewrite Hp. reflexivity.
Qed.

Lemma help_token_exits_with_zero_witness :
  main_setup desktop_build three_sensors
             (["Protonect"; "cpu"] ++ "--version" :: ["-frames"])
  = (Exit 0, initial_globals, no_devices, []).
Proof.
  apply (help_token_exits_with_zero desktop_build three_sensors
           ["Protonect"; "cpu"] ["-frames"] "--version" initial_globals
           (set_pipelines CpuPacketPipeline initial_locals) []).
  - discriminate.
  - reflexivity.
  - simpl. tauto.
Defined.

(** X2: [-gpu=<id>] after a pipeline has been selected is a hard error:
    [main] prints "-gpu must be specified before pipeline argument" and
    returns -1, whatever follows, with the state left as it was. *)
Theorem gpu_after_pipeline_is_rejected (b : Build) (f : Freenect2)
  (pre rest : list string) (id : string) (g : Globals) (l : Locals)
  (out : list Event) :
  pre <> [] ->
  parse_args b pre = (ArgsDone, g, l, out) ->
  non_null (pipeline_1 l) || non_null (pipeline_2 l) = true ->
  main_setup b f (pre ++ ("-gpu=" ++ id) :: rest)
  = (Exit (-1), g, no_devices,
     (out ++ [Cerr "-gpu must be specified before pipeline argument"])%list).
Proof.
  intros Hne Hpre Hset.
  unfold main_setup.
  rewrite (parse_args_return b pre rest ("-gpu=" ++ id) g g l l out
             [Cerr "-gpu must be specified before pipeline argument"] (-1)
             Hne Hpre); [reflexivity|].
  unfold arg_body. cbn. rewrite Hset. reflexivity.
Qed.

Lemma gpu_after_pipeline_is_rejected_witness :
  main_setup desktop_build three_sensors
             (["Protonect"; "cpu"] ++ ("-gpu=" ++ "1") :: ["-noviewer"])
  = (Exit (-1), initial_globals, no_devices,
     [Cerr "-gpu must be specified before pipeline argument"]).
Proof.
  apply (gpu_after_pipeline_is_rejected desktop_build three_sensors
           ["Protonect"; "cpu"] ["-noviewer"] "1" initial_globals
           (set_pipelines CpuPacketPipeline initial_locals) []).
  - discriminate.
  - reflexivity.
  - reflexivity.
Defined.

(** A token made of decimal digits only falls through every branch before
    the serial-number branch of line 240, whose body is empty. *)
Lemma arg_body_numeric (b : Build) (argv : list string) (argI : nat)
  (arg : string) (g : Globals) (l : Locals) :
  all_decimal arg = true ->
  arg_body b argv argI arg g l = (Next argI, g, l, []).
Proof.
  intros H. destruct arg as [|c rest]; [reflexivity|].
  destruct c as [[] [] [] [] [] [] [] []]; try discriminate H;
    unfold arg_body; cbn in H |- *; rewrite H; reflexivity.
Qed.

(** Two passes through the body that see the same token and the same next
    token end alike, each at its own position or one further. *)
Lemma arg_body_shift (b : Build) (argv argv' : list string)
  (argI argI' : nat) (arg : string) (g : Globals) (l : Locals) :
  nth_error argv (S argI) = nth_error argv' (S argI') ->
  match arg_body b argv argI arg g l, arg_body b argv' argI' arg g l with
  | (Next i, g1, l1, o1), (Next i', g2, l2, o2) =>
      g1 = g2 /\ l1 = l2 /\ o1 = o2
      /\ ((i = argI /\ i' = argI') \/ (i = S argI /\ i' = S argI'))
  | (Return c, g1, l1, o1), (Return c', g2, l2, o2) =>
      c = c' /\ g1 = g2 /\ l1 = l2 /\ o1 = o2
  | (NullArgument, g1, l1, o1), (NullArgument, g2, l2, o2) =>
      g1 = g2 /\ l1 = l2 /\ o1 = o2
  | _, _ => False
  end.
Proof.
  intros H. unfold arg_body. rewrite H.
  split_ifs; try (repeat split; auto; fail);
    destruct (nth_error argv' (S argI')); split_ifs; repeat split; auto.
Qed.

Lemma skipn_further {A : Type} (d a a' : nat) (l l' : list A) :
  skipn a l = skipn a' l' -> skipn (d + a) l = skipn (d + a') l'.
Proof.
  intros H. rewrite <- !skipn_skipn, H. reflexivity.
Qed.

(** The loop entered at a position sees only the tokens from that position
    on: over two command lines with the same tokens from the two entry
    positions on, it ends alike. *)
Lemma arg_loop_suffix (b : Build) (argv argv' : list string) :
  forall (fuel argI argI' : nat) (g : Globals) (l : Locals),
    skipn argI argv = skipn argI' argv' ->
    arg_loop fuel b argv argI g l = arg_loop fuel b argv' argI' g l.
Proof.
  induction fuel as [|fuel IH]; intros argI argI' g l Hs; [reflexivity|].
  cbn [arg_loop].
  rewrite <- (hd_error_skipn argI argv), <- (hd_error_skipn argI' argv'), Hs.
  destruct (hd_error (skipn argI' argv')) as [arg|]; [|reflexivity].
  assert (Hnext : nth_error argv (S argI) = nth_error argv' (S argI')).
  { rewrite <- (hd_error_skipn (S argI) argv),
            <- (hd_error_skipn (S argI') argv').
    exact (f_equal (@hd_error string)
                   (skipn_further 1 argI argI' argv argv' Hs)). }
  pose proof (arg_body_shift b argv argv' argI argI' arg g l Hnext) as Hb.
  destruct (arg_body b argv argI arg g l) as [[[fl g1] l1] o1].
  destruct (arg_body b argv' argI' arg g l) as [[[fl' g2] l2] o2].
  destruct fl as [i| |], fl' as [i'| |]; try contradiction.
  - destruct Hb as (-> & -> & -> & [[-> ->] | [-> ->]]).
    + rewrite (IH (S argI) (S argI') g2 l2
                 (skipn_further 1 argI argI' argv argv' Hs)).
      reflexivity.
    + rewrite (IH (S (S argI)) (S (S argI')) g2 l2
                 (skipn_further 2 argI argI' argv argv' Hs)).
      reflexivity.
  - destruct Hb as (-> & -> & -> & ->). reflexivity.
  - destruct Hb as (-> & -> & ->). reflexivity.
Qed.

Lemma skipn_length_app {A : Type} (pre rest : list A) :
  skipn (List.length pre) (pre ++ rest) = rest.
Proof.
  induction pre as [|x pre IH]; [reflexivity | exact IH].
Qed.

(** X3: a numeric token, which the usage line calls the device serial, has
    no effect wherever it stands in option position (that is, anywhere but
    as the value of [-frames]).  Whatever tokens follow it, the resolver
    ends in the same state and with the same output as on the command line
    without it, and [main] behaves in the same way: the devices it opens are
    still those at enumeration indices 0 and 1. *)
Theorem numeric_token_is_ignored (b : Build) (f : Freenect2)
  (pre rest : list string) (tok : string) (g : Globals) (l : Locals)
  (out : list Event) :
  pre <> [] ->
  parse_args b pre = (ArgsDone, g, l, out) ->
  all_decimal tok = true ->
  parse_args b (pre ++ tok :: rest) = parse_args b (pre ++ rest)
  /\ main_setup b f (pre ++ tok :: rest) = main_setup b f (pre ++ rest).
Proof.
  intros Hne Hpre Hnum.
  assert (Hp : parse_args b (pre ++ tok :: rest) = parse_args b (pre ++ rest)).
  { rewrite (parse_args_append b pre (tok :: rest) g l out Hne Hpre).
    rewrite (parse_args_append b pre rest g l out Hne Hpre).
    assert (Hfuel : List.length (pre ++ tok :: rest)
                    = S (List.length (pre ++ rest)))
      by (rewrite !length_app; simpl; lia).
    rewrite Hfuel.
    remember (S (List.length (pre ++ rest))) as fuel eqn:Hf.
    remember (arg_loop fuel b (pre ++ rest) (List.length pre) g l)
      as without eqn:Hw.
    cbn [arg_loop]. rewrite nth_error_middle.
    rewrite (arg_body_numeric b _ _ tok g l Hnum).
    rewrite (arg_loop_suffix b (pre ++ tok :: rest) (pre ++ rest)
               fuel (S (List.length pre)) (List.length pre) g l).
    - rewrite <- Hw. destruct without as [[[r g2] l2] out2]. reflexivity.
    - rewrite skipn_length_app.
      change (S (List.length pre)) with (1 + List.length pre)%nat.
      rewrite <- skipn_skipn, skipn_length_app. reflexivity. }
  split; [exact Hp|]. unfold main_setup. rewrite Hp. reflexivity.
Qed.

Lemma numeric_token_is_ignored_witness :
  main_setup desktop_build three_sensors
             (["Protonect"; "cpu"] ++ "500123441542" :: ["-frames"; "7"])
  = main_setup desktop_build three_sensors
               (["Protonect"; "cpu"] ++ ["-frames"; "7"]).
Proof.
  apply (numeric_token_is_ignored desktop_build three_sensors
           ["Protonect"; "cpu"] ["-frames"; "7"] "500123441542"
           initial_globals
           (set_pipelines CpuPacketPipeline initial_locals) []).
  - discriminate.
  - reflexivity.
  - reflexivity.
Defined.

Lemma strtol_range (s : string) (base : Z) :
  LONG_MIN <= CLib.strtol s base <= LONG_MAX.
Proof.
  unfold CLib.strtol.
  destruct (match CLib.skip_space s with
            | String "-" r => (true, r)
            | String "+" r => (false, r)
            | _ => (false, CLib.skip_space s)
            end) as [neg s2].
  destruct (CLib.pick_base base s2) as [bs s3].
  unfold CLib.clamp_long.
  destruct (_ <? LONG_MIN) eqn:E1; [unfold LONG_MIN, LONG_MAX; lia|].
  apply Z.ltb_ge in E1.
  destruct (LONG_MAX <? _) eqn:E2; [unfold LONG_MIN, LONG_MAX; lia|].
  apply Z.ltb_ge in E2. lia.
Qed.

(** X4: [-frames] followed by a value that [strtol] reads as a positive
    number sets [framemax] to that number, replacing any earlier limit; the
    value token is consumed and never looked at as an option; nothing is
    printed. *)
Theorem frames_with_positive_value_sets_the_limit (b : Build)
  (pre : list string) (v : string) (g : Globals) (l : Locals)
  (out : list Event) :
  pre <> [] ->
  parse_args b pre = (ArgsDone, g, l, out) ->
  0 < CLib.strtol v 0 ->
  parse_args b (pre ++ ["-frames"; v])
  = (ArgsDone, set_framemax (CLib.strtol v 0) g, l, out).
Proof.
  intros Hne Hpre Hpos.
  rewrite (parse_args_append b pre ["-frames"; v] g l out Hne Hpre).
  assert (Hv : nth_error (pre ++ ["-frames"; v]) (S (List.length pre))
               = Some v).
  { change (pre ++ ["-frames"; v])%list
      with (pre ++ ["-frames"] ++ [v])%list.
    rewrite app_assoc.
    replace (S (List.length pre)) with (List.length (pre ++ ["-frames"]))
      by (rewrite length_app; simpl; lia).
    apply nth_error_middle. }
  assert (Hend : nth_error (pre ++ ["-frames"; v]) (S (S (List.length pre)))
                 = None).
  { apply nth_error_None. rewrite length_app. simpl. lia. }
  assert (Hconv : to_size_t (CLib.strtol v 0) = CLib.strtol v 0).
  { pose proof (strtol_range v 0) as Hr. unfold to_size_t.
    apply Z.mod_small. unfold LONG_MAX, SIZE_MAX in *. lia. }
  rewrite length_app. cbn [List.length].
  replace (List.length pre + 2)%nat with (S (S (List.length pre))) by lia.
  cbn [arg_loop]. rewrite nth_error_middle, arg_body_frames, Hv, Hconv.
  replace (CLib.strtol v 0 <=? 0) with false
    by (symmetry; apply Z.leb_gt; exact Hpos).
  rewrite Hend, !app_nil_r. reflexivity.
Qed.

Lemma frames_with_positive_value_sets_the_limit_witness :
  parse_args desktop_build (["Protonect"; "-frames"; "9"] ++ ["-frames"; "0x20"])
  = (ArgsDone, set_framemax 32 (set_framemax 9 initial_globals),
     initial_locals, []).
Proof.
  apply (frames_with_positive_value_sets_the_limit desktop_build
           ["Protonect"; "-frames"; "9"] "0x20"
           (set_framemax 9 initial_globals) initial_locals []).
  - discriminate.
  - reflexivity.
  - reflexivity.
Defined.

(** ** What the argument loop keeps *)

(** A property of the loop's state that every pass through the body keeps
    is kept by the loop, however it ends. *)
Lemma arg_loop_preserves (b : Build) (P : Globals -> Locals -> Prop) :
  (forall argv argI arg g l fl g' l' out,
      P g l -> arg_body b argv argI arg g l = (fl, g', l', out) -> P g' l') ->
  forall fuel argv argI g l r g' l' out,
    P g l -> arg_loop fuel b argv argI g l = (r, g', l', out) -> P g' l'.
Proof.
  intros Hbody. induction fuel as [|fuel IH];
    intros argv argI g l r g' l' out HP H; simpl in H.
  - inversion H; subst; exact HP.
  - destruct (nth_error argv argI) as [arg|];
      [|inversion H; subst; exact HP].
    destruct (arg_body b argv argI arg g l) as [[[fl g1] l1] o1] eqn:Hb.
    pose proof (Hbody _ _ _ _ _ _ _ _ _ HP Hb) as HP1.
    destruct fl as [i| |]; try (inversion H; subst; exact HP1).
    destruct (arg_loop fuel b argv (S i) g1 l1) as [[[r2 g2] l2] o2] eqn:Hr.
    inversion H; subst. exact (IH _ _ _ _ _ _ _ _ HP1 Hr).
Qed.

(** The same for a property that only the passes reaching [++argI] keep,
    and a loop that ends normally. *)
Lemma arg_loop_done_preserves (b : Build) (P : Globals -> Locals -> Prop) :
  (forall argv argI arg g l i g' l' out,
      P g l -> arg_body b argv argI arg g l = (Next i, g', l', out) ->
      P g' l') ->
  forall fuel argv argI g l g' l' out,
    P g l -> arg_loop fuel b argv argI g l = (ArgsDone, g', l', out) ->
    P g' l'.
Proof.
  intros Hbody. induction fuel as [|fuel IH];
    intros argv argI g l g' l' out HP H; simpl in H.
  - discriminate.
  - destruct (nth_error argv argI) as [arg|];
      [|inversion H; subst; exact HP].
    destruct (arg_body b argv argI arg g l) as [[[fl g1] l1] o1] eqn:Hb.
    destruct fl as [i| |]; try discriminate.
    pose proof (Hbody _ _ _ _ _ _ _ _ _ HP Hb) as HP1.
    destruct (arg_loop fuel b argv (S i) g1 l1) as [[[r2 g2] l2] o2] eqn:Hr.
    inversion H; subst. exact (IH _ _ _ _ _ _ _ HP1 Hr).
Qed.

(** One pass through the body, seen from the pipelines: it leaves both as
    they are, or sets both to the same new pipeline, and the latter only
    when one of them was still null. *)
Lemma arg_body_pipelines (b : Build) (argv : list string) (argI : nat)
  (arg : string) (g g' : Globals) (l l' : Locals) (fl : Flow)
  (out : list Event) :
  arg_body b argv argI arg g l = (fl, g', l', out) ->
  (pipeline_1 l' = pipeline_1 l /\ pipeline_2 l' = pipeline_2 l)
  \/ (negb (non_null (pipeline_1 l)) || negb (non_null (pipeline_2 l)) = true
      /\ exists p, pipeline_1 l' = Some p /\ pipeline_2 l' = Some p).
Proof.
  unfold arg_body, select_pipeline. intros H.
  peel H; inversion H; subst; try (left; split; reflexivity);
    (destruct (negb (non_null (pipeline_1 l))
               || negb (non_null (pipeline_2 l))) eqn:E;
     [right; split; [reflexivity | eexists; split; reflexivity]
     |left; split; reflexivity]).
Qed.

(** X5: both device slots always get the same pipeline.  However the
    resolver ends, [pipeline_1] and [pipeline_2] are equal, and so are the
    pipelines handed to the two [openDevice] calls. *)
Theorem pipelines_are_always_paired (b : Build) (argv : list string) :
  pipeline_1 (third_of (parse_args b argv))
  = pipeline_2 (third_of (parse_args b argv))
  /\ pipeline_for_1 (third_of (parse_args b argv))
     = pipeline_for_2 (third_of (parse_args b argv)).
Proof.
  assert (H : pipeline_1 (third_of (parse_args b argv))
              = pipeline_2 (third_of (parse_args b argv))).
  { destruct (parse_args b argv) as [[[r g] l] out] eqn:Hp.
    unfold third_of. cbn [fst snd]. unfold parse_args in Hp.
    refine (arg_loop_preserves b (fun _ l => pipeline_1 l = pipeline_2 l)
              _ _ _ _ _ _ _ _ _ _ _ Hp); [|reflexivity].
    intros argv' argI arg g0 l0 fl g1 l1 o HP Hb.
    destruct (arg_body_pipelines _ _ _ _ _ _ _ _ _ _ Hb)
      as [[H1 H2] | [_ (p & H1 & H2)]]; congruence. }
  split; [exact H|].
  unfold pipeline_for_1, pipeline_for_2. rewrite H. reflexivity.
Qed.

(** X6: the first pipeline selection wins.  Once both pipelines are set,
    no later token changes them: whatever is appended to the command line
    and however the resolver then ends, both are still the pipeline
    selected first. *)
Theorem first_pipeline_selection_wins (b : Build) (pre suf : list string)
  (p : PacketPipeline) (g : Globals) (l : Locals) (out : list Event) :
  pre <> [] ->
  parse_args b pre = (ArgsDone, g, l, out) ->
  pipeline_1 l = Some p ->
  pipeline_2 l = Some p ->
  pipeline_1 (third_of (parse_args b (pre ++ suf))) = Some p
  /\ pipeline_2 (third_of (parse_args b (pre ++ suf))) = Some p.
Proof.
  intros Hne Hpre H1 H2.
  rewrite (parse_args_append b pre suf g l out Hne Hpre).
  destruct (arg_loop _ b (pre ++ suf) (List.length pre) g l)
    as [[[r g2] l2] out2] eqn:Hl.
  unfold third_of. cbn [fst snd].
  refine (arg_loop_preserves b
            (fun _ l => pipeline_1 l = Some p /\ pipeline_2 l = Some p)
            _ _ _ _ _ _ _ _ _ _ _ Hl); [|split; assumption].
  intros argv' argI arg g0 l0 fl g1 l1 o [HP1 HP2] Hb.
  destruct (arg_body_pipelines _ _ _ _ _ _ _ _ _ _ Hb)
    as [[E1 E2] | [Hnull _]].
  - split; congruence.
  - rewrite HP1, HP2 in Hnull. discriminate.
Qed.

Lemma first_pipeline_selection_wins_witness :
  pipeline_1 (third_of (parse_args desktop_build
                          (["Protonect"; "cpu"] ++ ["gl"; "-gpu=1"])))
  = Some CpuPacketPipeline.
Proof.
  apply (first_pipeline_selection_wins desktop_build ["Protonect"; "cpu"]
           ["gl"; "-gpu=1"] CpuPacketPipeline initial_globals
           (set_pipelines CpuPacketPipeline initial_locals) []).
  - discriminate.
  - reflexivity.
  - reflexivity.
  - reflexivity.
Defined.

(** One pass through the body never turns a switch back on. *)
Lemma arg_body_switches (b : Build) (argv : list string) (argI : nat)
  (arg : string) (g g' : Globals) (l l' : Locals) (fl : Flow)
  (out : list Event) :
  arg_body b argv argI arg g l = (fl, g', l', out) ->
  (viewer_enabled g = false -> viewer_enabled g' = false)
  /\ (enable_rgb g = false -> enable_rgb g' = false)
  /\ (enable_depth g = false -> enable_depth g' = false).
Proof.
  unfold arg_body. intros H.
  peel H; inversion H; subst; cbn; auto.
Qed.

(** X7: no token turns the viewer or a stream back on.  After a command
    line over which the resolver ends normally with a switch off, the
    switch is still off after any further tokens, however the resolver then
    ends. *)
Theorem switches_only_turn_off (b : Build) (pre suf : list string)
  (g : Globals) (l : Locals) (out : list Event) :
  pre <> [] ->
  parse_args b pre = (ArgsDone, g, l, out) ->
  (viewer_enabled g = false ->
   viewer_enabled (globals_of (parse_args b (pre ++ suf))) = false)
  /\ (enable_rgb g = false ->
      enable_rgb (globals_of (parse_args b (pre ++ suf))) = false)
  /\ (enable_depth g = false ->
      enable_depth (globals_of (parse_args b (pre ++ suf))) = false).
Proof.
  intros Hne Hpre.
  rewrite (parse_args_append b pre suf g l out Hne Hpre).
  destruct (arg_loop _ b (pre ++ suf) (List.length pre) g l)
    as [[[r g2] l2] out2] eqn:Hl.
  unfold globals_of. cbn [fst snd].
  refine (arg_loop_preserves b
            (fun g' _ =>
               (viewer_enabled g = false -> viewer_enabled g' = false)
               /\ (enable_rgb g = false -> enable_rgb g' = false)
               /\ (enable_depth g = false -> enable_depth g' = false))
            _ _ _ _ _ _ _ _ _ _ _ Hl); [|auto].
  intros argv' argI arg g0 l0 fl g1 l1 o (HP1 & HP2 & HP3) Hb.
  destruct (arg_body_switches _ _ _ _ _ _ _ _ _ _ Hb) as (S1 & S2 & S3).
  auto.
Qed.

Lemma switches_only_turn_off_witness :
  enable_rgb (globals_of (parse_args desktop_build
                            (["Protonect"; "-norgb"] ++ ["cpu"; "-frames"])))
  = false.
Proof.
  apply (switches_only_turn_off desktop_build ["Protonect"; "-norgb"]
           ["cpu"; "-frames"] (set_enable_rgb false initial_globals)
           initial_locals []).
  - discriminate.
  - reflexivity.
  - reflexivity.
Defined.

(** The loop's output is console output only. *)
Lemma arg_body_console (b : Build) (argv : list string) (argI : nat)
  (arg : string) (g g' : Globals) (l l' : Locals) (fl : Flow)
  (out : list Event) :
  arg_body b argv argI arg g l = (fl, g', l', out) ->
  forallb is_console out = true.
Proof.
  unfold arg_body. intros H.
  peel H; inversion H; subst; reflexivity.
Qed.

Lemma arg_loop_console (b : Build) (argv : list string) :
  forall (fuel argI : nat) (g g' : Globals) (l l' : Locals) (r : ArgOutcome)
         (out : list Event),
    arg_loop fuel b argv argI g l = (r, g', l', out) ->
    forallb is_console out = true.
Proof.
  induction fuel as [|fuel IH]; intros argI g g' l l' r out H; simpl in H.
  - inversion H; subst; reflexivity.
  - destruct (nth_error argv argI) as [arg|];
      [|inversion H; subst; reflexivity].
    destruct (arg_body b argv argI arg g l) as [[[fl g1] l1] o1] eqn:Hb.
    apply arg_body_console in Hb.
    destruct fl as [i| |]; try (inversion H; subst; exact Hb).
    destruct (arg_loop fuel b argv (S i) g1 l1) as [[[r2 g2] l2] o2] eqn:Hr.
    apply IH in Hr. inversion H; subst.
    rewrite forallb_app, Hb, Hr. reflexivity.
Qed.

(** X8: a configuration error comes before any device is touched.  When
    the resolver does not end normally, or ends with both streams disabled,
    [main] does not launch the workers, no device object exists, and its
    whole trace is console output: it has not enumerated or opened
    anything. *)
Theorem configuration_errors_touch_no_device (b : Build) (f : Freenect2)
  (argv : list string) :
  outcome_of (parse_args b argv) <> ArgsDone
  \/ (enable_rgb (globals_of (parse_args b argv)) = false
      /\ enable_depth (globals_of (parse_args b argv)) = false) ->
  forallb is_console (trace_of (main_setup b f argv)) = true
  /\ third_of (main_setup b f argv) = no_devices
  /\ forall d1 d2, outcome_of (main_setup b f argv) <> Started d1 d2.
Proof.
  intros H. unfold main_setup.
  destruct (parse_args b argv) as [[[r g] l] out] eqn:Hp.
  pose proof Hp as Hc. unfold parse_args in Hc. apply arg_loop_console in Hc.
  unfold outcome_of, globals_of, third_of, trace_of in *. cbn [fst snd] in *.
  destruct r; cbn [fst snd];
    try (split; [exact Hc | split; [reflexivity | discriminate]]).
  destruct H as [H | [Hr Hd]]; [congruence|].
  rewrite Hr, Hd. cbn [negb andb fst snd].
  rewrite forallb_app, Hc.
  split; [reflexivity | split; [reflexivity | discriminate]].
Qed.

Lemma configuration_errors_touch_no_device_witness :
  forallb is_console
    (trace_of (main_setup desktop_build three_sensors
                          ["Protonect"; "-norgb"; "-nodepth"])) = true.
Proof.
  apply (configuration_errors_touch_no_device desktop_build three_sensors
           ["Protonect"; "-norgb"; "-nodepth"]).
  right. split; reflexivity.
Defined.

(** ** The state in which the workers are launched *)

(** What a normal end of the argument loop guarantees: the loop has not
    touched the shutdown flag, the pause flag or the [devtopause] pointers,
    and [framemax] is not 0. *)
Lemma parse_done_state (b : Build) (argv : list string) (g : Globals)
  (l : Locals) (out : list Event) :
  parse_args b argv = (ArgsDone, g, l, out) ->
  protonect_shutdown g = false
  /\ protonect_paused g = false
  /\ devtopause_1 g = None
  /\ devtopause_2 g = None
  /\ 0 < framemax g <= SIZE_MAX.
Proof.
  unfold parse_args. intros H.
  refine (arg_loop_done_preserves b
            (fun g _ => protonect_shutdown g = false
                        /\ protonect_paused g = false
                        /\ devtopause_1 g = None
                        /\ devtopause_2 g = None
                        /\ 0 < framemax g <= SIZE_MAX)
            _ _ _ _ _ _ _ _ _ _ H).
  - clear. intros argv argI arg g l i g' l' out (H1 & H2 & H3 & H4 & H5) Hb.
    unfold arg_body in Hb.
    peel Hb; inversion Hb; subst; cbn; repeat split; try assumption;
      try tauto;
      try (match goal with
           | E : (framemax _ <=? 0) = false |- _ =>
               cbn in E; apply Z.leb_gt in E; exact E
           end);
      unfold to_size_t;
      match goal with
      | |- ?x mod _ <= _ =>
          pose proof (Z.mod_pos_bound x (SIZE_MAX + 1));
          unfold SIZE_MAX in *; lia
      end.
  - cbn. repeat split; try reflexivity; discriminate.
Qed.

(** What [main] has established when it launches the workers. *)
Lemma main_setup_started (b : Build) (f : Freenect2) (argv : list string)
  (d1 d2 : DevPtr) (g : Globals) (h : Devices) (out : list Event) :
  main_setup b f argv = (Started d1 d2, g, h, out) ->
  (d1 = DevA /\ d2 = DevB
   /\ h = both_opened
   /\ devtopause_1 g = Some DevA /\ devtopause_2 g = Some DevB
   /\ protonect_shutdown g = false
   /\ protonect_paused g = false)
  /\ (enable_rgb g || enable_depth g = true
      /\ 0 < framemax g <= SIZE_MAX
      /\ 2 <= enumerateDevices f).
Proof.
  unfold main_setup. intros H.
  destruct (parse_args b argv) as [[[r g0] l] o] eqn:Hp.
  destruct r; try discriminate.
  destruct (parse_done_state b argv g0 l o Hp) as (_ & Hpa & _ & _ & Hfm).
  destruct (negb (enable_rgb g0) && negb (enable_depth g0)) eqn:Hst;
    [discriminate|].
  destruct (enumerateDevices f =? 0) eqn:E0; [discriminate|].
  destruct (enumerateDevices f =? 1) eqn:E1; [discriminate|].
  apply Z.eqb_neq in E0. apply Z.eqb_neq in E1.
  assert (Hn : 2 <= enumerateDevices f)
    by (unfold enumerateDevices in *; lia).
  assert (Hs : enable_rgb g0 || enable_depth g0 = true)
    by (destruct (enable_rgb g0), (enable_depth g0); simpl in *; congruence).
  destruct (streq (serial_1 l) "" || streq (serial_2 l) "");
    unfold openDevice in H;
    repeat match type of H with
           | context [if can_open ?f0 ?s then _ else _] =>
               destruct (can_open f0 s)
           end;
    try discriminate; inversion H; subst; cbn; repeat split;
    try exact Hpa; try exact Hs; try exact Hn; tauto.
Qed.

(** X9: the state in which [main] launches the two workers.  Whenever
    [main] gets that far, the two device objects are the ones its two
    [openDevice] calls created, both are opened and neither streams, the
    pause handler's pointers name them in that order, the shutdown flag is
    clear and the session is not paused. *)
Theorem launch_state (b : Build) (f : Freenect2) (argv : list string)
  (d1 d2 : DevPtr) (g : Globals) (h : Devices) (out : list Event) :
  main_setup b f argv = (Started d1 d2, g, h, out) ->
  d1 = DevA /\ d2 = DevB
  /\ h = both_opened
  /\ devtopause_1 g = Some DevA /\ devtopause_2 g = Some DevB
  /\ protonect_shutdown g = false
  /\ protonect_paused g = false.
Proof.
  intros H. exact (proj1 (main_setup_started b f argv d1 d2 g h out H)).
Qed.

Lemma launch_state_witness :
  globals_of (main_setup desktop_build three_sensors ["Protonect"; "cpu"])
  = launched_globals
  /\ devtopause_1 launched_globals = Some DevA.
Proof.
  split; [reflexivity|].
  apply (launch_state desktop_build three_sensors ["Protonect"; "cpu"]
           DevA DevB launched_globals both_opened
           (trace_of (main_setup desktop_build three_sensors
                                 ["Protonect"; "cpu"]))).
  reflexivity.
Defined.

(** X10: the workers are never launched on a configuration they cannot
    run.  Whenever [main] launches them, at least one stream is enabled,
    the frame limit is not 0 (it is a number from 1 to [SIZE_MAX], the
    latter meaning "no limit"), and at least two devices were connected. *)
Theorem launched_configuration_is_runnable (b : Build) (f : Freenect2)
  (argv : list string) (d1 d2 : DevPtr) (g : Globals) (h : Devices)
  (out : list Event) :
  main_setup b f argv = (Started d1 d2, g, h, out) ->
  enable_rgb g || enable_depth g = true
  /\ 0 < framemax g <= SIZE_MAX
  /\ 2 <= enumerateDevices f.
Proof.
  intros H. exact (proj2 (main_setup_started b f argv d1 d2 g h out H)).
Qed.

Lemma launched_configuration_is_runnable_witness :
  0 < framemax (globals_of (main_setup desktop_build three_sensors
                                       ["Protonect"; "-frames"; "7"]))
  <= SIZE_MAX.
Proof.
  apply (launched_configuration_is_runnable desktop_build three_sensors
           ["Protonect"; "-frames"; "7"] DevA DevB
           (globals_of (main_setup desktop_build three_sensors
                                   ["Protonect"; "-frames"; "7"]))
           both_opened
           (trace_of (main_setup desktop_build three_sensors
                                 ["Protonect"; "-frames"; "7"]))).
  reflexivity.
Defined.

(** ** Teardown *)

Lemma main_teardown_open (h : Devices) :
  is_open (dev_get h DevA) = true ->
  is_open (dev_get h DevB) = true ->
  main_teardown DevA DevB h
  = (0, both_closed,
     [DevStop DevA; DevStop DevB; DevClose DevA; DevClose DevB]).
Proof.
  destruct h as [[[|r1 d1|]|] [[|r2 d2|]|]]; cbn; intros Ha Hb;
    try discriminate; reflexivity.
Qed.

(** X11: the teardown of [main] closes both devices whatever the workers
    and the pause trigger left behind.  From any store in which both device
    objects are opened, streaming or not, [main] calls stop on both and then
    close on both, in that order, leaves both [Closed] and returns 0. *)
Theorem teardown_closes_both_devices (h : Devices) :
  is_open (dev_get h DevA) = true ->
  is_open (dev_get h DevB) = true ->
  main_teardown DevA DevB h
  = (0, both_closed,
     [DevStop DevA; DevStop DevB; DevClose DevA; DevClose DevB]).
Proof. exact (main_teardown_open h). Qed.

Lemma teardown_closes_both_devices_witness :
  main_teardown DevA DevB
                (mkDevices (Some (Streaming false true)) (Some Opened))
  = (0, both_closed,
     [DevStop DevA; DevStop DevB; DevClose DevA; DevClose DevB]).
Proof.
  apply (teardown_closes_both_devices
           (mkDevices (Some (Streaming false true)) (Some Opened)));
    reflexivity.
Defined.

(** ** The pause trigger, delivered [n] times *)

(** X12: the pause flag alternates.  With both [devtopause] pointers set,
    after an even number of deliveries of SIGUSR1 all the globals are as
    they were, and after an odd number exactly [protonect_paused] is
    negated; whether the start calls succeed makes no difference to the
    flag. *)
Theorem pause_flag_alternates (hw1 hw2 : bool) (p1 p2 : DevPtr) :
  forall (n : nat) (g : Globals) (h : Devices),
    devtopause_1 g = Some p1 ->
    devtopause_2 g = Some p2 ->
    fst (sigusr1_times n hw1 hw2 g h)
    = (if Nat.even n then g
       else set_protonect_paused (negb (protonect_paused g)) g).
Proof.
  induction n as [|n IH]; intros g h H1 H2; [reflexivity|].
  cbn [sigusr1_times]. unfold sigusr1_handler. rewrite H1, H2.
  destruct (protonect_paused g) eqn:Hp;
    cbv zeta; cbn [fst snd];
    rewrite IH by (cbn; assumption);
    rewrite Nat.even_succ, <- Nat.negb_even;
    destruct (Nat.even n); cbn [negb];
    destruct g as [sd ve er ed fm pa q1 q2]; cbn in *; subst;
    reflexivity.
Qed.

Lemma pause_flag_alternates_witness :
  fst (sigusr1_times 5 true false launched_globals both_streaming)
  = set_protonect_paused true launched_globals.
Proof.
  apply (pause_flag_alternates true false DevA DevB 5 launched_globals
           both_streaming); reflexivity.
Defined.

(** ** The worker: what a pass keeps and what it emits *)

(** A pass changes nothing in the globals but [protonect_shutdown]. *)
Lemma loop_body_keeps_configuration (b : Build) (dev : DevPtr) (it : Iter)
  (g : Globals) (framecount : Z) :
  set_protonect_shutdown (protonect_shutdown g)
    (globals_of (loop_body b dev it g framecount)) = g.
Proof.
  unfold loop_body, viewer_part, globals_of.
  destruct g as [sd ve er ed fm pa q1 q2].
  destruct it as [fa vc dw dr ab].
  destruct dw as [?|], dr as [?|], ab as [?|]; cbn;
    split_ifs; reflexivity.
Qed.

Lemma running_loop_keeps_configuration (b : Build) (dev : DevPtr)
  (its : list Iter) :
  forall (g : Globals) (framecount : Z),
    set_protonect_shutdown (protonect_shutdown g)
      (globals_of (running_loop b dev its g framecount)) = g.
Proof.
  induction its as [|it its IH]; intros g n; cbn [running_loop].
  - destruct (loop_test g n); destruct g; reflexivity.
  - destruct (loop_test g n); [|destruct g; reflexivity].
    pose proof (loop_body_keeps_configuration b dev it g n) as Hb.
    destruct (loop_body b dev it g n) as [[[cont g1] n1] out].
    unfold globals_of in Hb. cbn [fst snd] in Hb.
    destruct cont; [|exact Hb].
    specialize (IH g1 n1).
    destruct (running_loop b dev its g1 n1) as [[[r g2] n2] out'].
    unfold globals_of in *. cbn [fst snd] in *.
    rewrite <- Hb at 2. rewrite <- IH.
    destruct g2; reflexivity.
Qed.

(** The counter after a pass. *)
Lemma loop_body_framecount (b : Build) (dev : DevPtr) (it : Iter)
  (g : Globals) (framecount : Z) :
  third_of (loop_body b dev it g framecount)
  = (if frame_arrives it then to_size_t (framecount + 1) else framecount).
Proof.
  unfold loop_body, viewer_part, third_of.
  destruct (frame_arrives it); cbn [negb]; cbv iota; [|reflexivity].
  split_ifs; reflexivity.
Qed.

(** The calls of a pass, by kind. *)
Lemma loop_body_calls (b : Build) (dev : DevPtr) (it : Iter) (g : Globals)
  (framecount : Z) :
  let tr := trace_of (loop_body b dev it g framecount) in
  count is_stop_or_close tr = 0
  /\ count is_start_or_stop tr = 0
  /\ count is_apply tr
     = (if frame_arrives it && (enable_rgb g && enable_depth g)
        then 1 else 0)
  /\ (viewer_enabled g = false \/ EXAMPLES_WITH_OPENGL_SUPPORT b = false ->
      count is_viewer_call tr = 0).
Proof.
  unfold loop_body, viewer_part, trace_of.
  destruct g as [sd ve er ed fm pa q1 q2].
  destruct it as [fa vc dw dr ab].
  destruct dw as [?|]; cbn;
    destruct fa; cbn;
    destruct er, ed, ve; cbn;
    try destruct (EXAMPLES_WITH_OPENGL_SUPPORT b); cbn;
    split_ifs; cbn; repeat split; try reflexivity;
    intros [?|?]; discriminate.
Qed.

Lemma kept_fields (s : bool) (g g1 : Globals) :
  set_protonect_shutdown s g1 = g ->
  viewer_enabled g1 = viewer_enabled g
  /\ enable_rgb g1 = enable_rgb g
  /\ enable_depth g1 = enable_depth g
  /\ framemax g1 = framemax g.
Proof.
  intros <-. destruct g1; cbn. repeat split; reflexivity.
Qed.

Lemma running_loop_calls (b : Build) (dev : DevPtr) (its : list Iter) :
  forall (g : Globals) (framecount : Z),
    let tr := trace_of (running_loop b dev its g framecount) in
    count is_stop_or_close tr = 0
    /\ count is_start_or_stop tr = 0
    /\ count is_apply tr
       = (if enable_rgb g && enable_depth g then count is_acquire tr else 0)
    /\ (viewer_enabled g = false \/ EXAMPLES_WITH_OPENGL_SUPPORT b = false ->
        count is_viewer_call tr = 0).
Proof.
  induction its as [|it its IH]; intros g n; cbn [running_loop]; cbv zeta.
  - destruct (loop_test g n); unfold trace_of; cbn [snd];
      rewrite !count_nil; destruct (enable_rgb g && enable_depth g);
      repeat split; reflexivity.
  - destruct (loop_test g n);
      [|unfold trace_of; cbn [snd]; rewrite !count_nil;
        destruct (enable_rgb g && enable_depth g); repeat split; reflexivity].
    pose proof (loop_body_calls b dev it g n) as Hc.
    pose proof (loop_body_listener b dev it g n) as Hl.
    pose proof (loop_body_continues b dev it g n) as Hk.
    pose proof (loop_body_keeps_configuration b dev it g n) as Hg.
    destruct (loop_body b dev it g n) as [[[cont g1] n1] out].
    cbv zeta in Hc, Hl. unfold trace_of, outcome_of, globals_of in *.
    cbn [fst snd] in *.
    destruct Hc as (C1 & C2 & C3 & C4). destruct Hl as (_ & _ & L3 & _).
    apply kept_fields in Hg. destruct Hg as (K1 & K2 & K3 & _).
    subst cont. destruct (frame_arrives it); cbn [andb] in C3.
    + specialize (IH g1 n1). cbv zeta in IH.
      destruct (running_loop b dev its g1 n1) as [[[r g2] n2] out'].
      cbn [fst snd] in *. destruct IH as (I1 & I2 & I3 & I4).
      rewrite K1, K2, K3 in *. rewrite !count_app.
      repeat split; try lia.
      * rewrite C3, I3, L3.
        destruct (enable_rgb g && enable_depth g); lia.
      * intros Hv. rewrite (C4 Hv), (I4 Hv). reflexivity.
    + cbn [fst snd]. repeat split; try assumption.
      rewrite C3, L3. destruct (enable_rgb g && enable_depth g); reflexivity.
Qed.

Lemma running_loop_framecount (b : Build) (dev : DevPtr) (its : list Iter) :
  forall (g : Globals) (framecount : Z),
    0 <= framecount <= SIZE_MAX ->
    third_of (running_loop b dev its g framecount)
    = to_size_t (framecount
                 + count is_acquire
                         (trace_of (running_loop b dev its g framecount))).
Proof.
  assert (Hsmall : forall n, 0 <= n <= SIZE_MAX -> to_size_t (n + 0) = n).
  { intros n Hn. rewrite Z.add_0_r. unfold to_size_t.
    apply Z.mod_small. lia. }
  induction its as [|it its IH]; intros g n Hn; cbn [running_loop].
  - destruct (loop_test g n); unfold third_of, trace_of; cbn [fst snd];
      rewrite count_nil, Hsmall by exact Hn; reflexivity.
  - destruct (loop_test g n);
      [|unfold third_of, trace_of; cbn [fst snd];
        rewrite count_nil, Hsmall by exact Hn; reflexivity].
    pose proof (loop_body_framecount b dev it g n) as Hc.
    pose proof (loop_body_listener b dev it g n) as Hl.
    pose proof (loop_body_continues b dev it g n) as Hk.
    destruct (loop_body b dev it g n) as [[[cont g1] n1] out].
    cbv zeta in Hl. unfold trace_of, outcome_of, third_of in *.
    cbn [fst snd] in *. destruct Hl as (_ & _ & L3 & _).
    subst cont n1. destruct (frame_arrives it).
    + assert (Hn1 : 0 <= to_size_t (n + 1) <= SIZE_MAX).
      { unfold to_size_t.
        pose proof (Z.mod_pos_bound (n + 1) (SIZE_MAX + 1)).
        unfold SIZE_MAX in *. lia. }
      specialize (IH g1 (to_size_t (n + 1)) Hn1).
      destruct (running_loop b dev its g1 (to_size_t (n + 1)))
        as [[[r g2] n2] out'].
      cbn [fst snd] in *. rewrite IH, count_app, L3.
      unfold to_size_t. rewrite Zplus_mod_idemp_l. f_equal. lia.
    + cbn [fst snd]. rewrite L3. symmetry. apply Hsmall. exact Hn.
Qed.

(** Either the device starts or it does not. *)
Lemma running_cases (hw : bool) (dev : DevPtr) (h : Devices) :
  (dev_get h dev = Some Opened /\ hw = true)
  \/ (dev_get h dev <> Some Opened \/ hw = false).
Proof.
  destruct hw; [|right; right; reflexivity].
  destruct (dev_get h dev) as [[| |]|];
    [left; split; reflexivity | right; left; discriminate ..].
Qed.

(** X13: a worker whose device does not start returns at once.  When the
    device is not in the opened state or the hardware refuses, [running]
    makes its one start call and returns: no listener is created, nothing is
    waited for, and the globals and the devices are as they were. *)
Theorem start_failure_ends_the_worker (b : Build) (hw : bool)
  (its : list Iter) (dev : DevPtr) (g : Globals) (h : Devices) :
  dev_get h dev <> Some Opened \/ hw = false ->
  running b hw its dev g h =
  (StartFailed, g, h, 0,
   if enable_rgb g && enable_depth g then [DevStart dev]
   else [DevStartStreams dev (enable_rgb g) (enable_depth g)]).
Proof. exact (running_not_started b hw its dev g h). Qed.

Lemma start_failure_ends_the_worker_witness :
  running desktop_build false [calm; calm] DevB
          (set_enable_rgb false launched_globals) both_opened
  = (StartFailed, set_enable_rgb false launched_globals, both_opened, 0,
     [DevStartStreams DevB false true]).
Proof.
  apply (start_failure_ends_the_worker desktop_build false [calm; calm] DevB
           (set_enable_rgb false launched_globals) both_opened).
  right. reflexivity.
Defined.

(** X14: a worker never stops or closes its device.  When the device
    starts, [running] returns, however its loop ends, with the device
    streaming exactly the enabled selection of streams, the other device
    untouched, and no stop or close call in its trace. *)
Theorem worker_leaves_its_device_streaming (b : Build) (its : list Iter)
  (dev : DevPtr) (g : Globals) (h : Devices) :
  dev_get h dev = Some Opened ->
  worker_devices (running b true its dev g h)
  = dev_set h dev (Streaming (enable_rgb g) (enable_depth g))
  /\ count is_stop_or_close (worker_trace (running b true its dev g h)) = 0.
Proof.
  intros Hopen. rewrite (running_unfold b its dev g h Hopen). cbv zeta.
  pose proof (running_loop_calls b dev its (worker_loop_globals b g) 0) as Hc.
  pose proof (worker_prologue_calls b dev g) as Hp.
  destruct (running_loop b dev its (worker_loop_globals b g) 0)
    as [[[r g1] n1] out'].
  cbv zeta in Hc. unfold trace_of in Hc. cbn [snd] in Hc.
  destruct Hc as (C1 & _). destruct Hp as (_ & _ & _ & P4 & _).
  destruct r; unfold worker_devices, worker_trace; cbn [fst snd];
    (split; [reflexivity|]); rewrite !count_app, C1, P4; reflexivity.
Qed.

Lemma worker_leaves_its_device_streaming_witness :
  worker_devices (running desktop_build true [calm; no_frame] DevA
                          (set_enable_rgb false launched_globals) both_opened)
  = mkDevices (Some (Streaming false true)) (Some Opened).
Proof.
  apply (worker_leaves_its_device_streaming desktop_build [calm; no_frame]
           DevA (set_enable_rgb false launched_globals) both_opened).
  reflexivity.
Defined.

(** A pass that is left alone puts the globals back as they were. *)
Lemma loop_body_left_alone (b : Build) (dev : DevPtr) (it : Iter)
  (g : Globals) (framecount : Z) :
  left_alone it = true ->
  globals_of (loop_body b dev it g framecount) = g.
Proof.
  unfold left_alone. destruct it as [fa vc dw dr ab]. cbn.
  destruct vc; [discriminate|].
  destruct dw; [discriminate|]. destruct dr; [discriminate|].
  destruct ab; [discriminate|]. intros _.
  unfold loop_body, viewer_part, globals_of.
  destruct g as [sd ve er ed fm pa q1 q2]. cbn.
  destruct fa; cbn; [|reflexivity].
  destruct ve; cbn; [|split_ifs; reflexivity].
  destruct (EXAMPLES_WITH_OPENGL_SUPPORT b); cbn; [|reflexivity].
  destruct sd; cbn; reflexivity.
Qed.

Lemma running_loop_left_alone (b : Build) (dev : DevPtr) (its : list Iter) :
  forall (g : Globals) (framecount : Z),
    forallb left_alone its = true ->
    globals_of (running_loop b dev its g framecount) = g.
Proof.
  induction its as [|it its IH]; intros g n Hl; cbn [running_loop].
  - destruct (loop_test g n); reflexivity.
  - destruct (loop_test g n); [|reflexivity].
    cbn [forallb] in Hl. apply andb_true_iff in Hl. destruct Hl as [Hl1 Hl2].
    pose proof (loop_body_left_alone b dev it g n Hl1) as Hb.
    destruct (loop_body b dev it g n) as [[[cont g1] n1] out].
    unfold globals_of in Hb. cbn [fst snd] in Hb. subst g1.
    destruct cont; [|reflexivity].
    specialize (IH g n1 Hl2).
    destruct (running_loop b dev its g n1) as [[[r g2] n2] out'].
    exact IH.
Qed.

(** X15: a worker that ends does not ask the other one to end.  As long as
    the viewer does not ask to close and nobody else stores into the flag,
    [running] returns with [protonect_shutdown] as it found it, whether it
    ends because the device does not start, because a wait times out or
    because the frame limit is reached. *)
Theorem worker_exit_does_not_request_shutdown (b : Build) (hw : bool)
  (its : list Iter) (dev : DevPtr) (g : Globals) (h : Devices) :
  forallb left_alone its = true ->
  protonect_shutdown (worker_globals (running b hw its dev g h))
  = protonect_shutdown g.
Proof.
  intros Hl.
  destruct (running_cases hw dev h) as [[Hopen ->] | Hfail].
  - rewrite (running_unfold b its dev g h Hopen). cbv zeta.
    pose proof (running_loop_left_alone b dev its (worker_loop_globals b g)
                  0 Hl) as Hg.
    destruct (running_loop b dev its (worker_loop_globals b g) 0)
      as [[[r g1] n1] out'].
    unfold globals_of in Hg. cbn [fst snd] in Hg. subst g1.
    destruct r; unfold worker_globals; cbn [fst snd];
      unfold worker_loop_globals;
      destruct (EXAMPLES_WITH_OPENGL_SUPPORT b); reflexivity.
  - rewrite (running_not_started b hw its dev g h Hfail). reflexivity.
Qed.

Lemma worker_exit_does_not_request_shutdown_witness :
  worker_exit (running desktop_build true [calm; no_frame; calm] DevA
                       launched_globals both_opened) = WaitTimedOut
  /\ protonect_shutdown
       (worker_globals (running desktop_build true [calm; no_frame; calm]
                                DevA launched_globals both_opened))
     = false.
Proof.
  split; [reflexivity|].
  apply (worker_exit_does_not_request_shutdown desktop_build true
           [calm; no_frame; calm] DevA launched_globals both_opened).
  reflexivity.
Defined.

(** X16: [framecount] counts the acquired FrameSets.  Whatever happens,
    the counter [running] ends with is the number of successful waits in
    its trace, reduced modulo 2^64. *)
Theorem framecount_counts_acquired_framesets (b : Build) (hw : bool)
  (its : list Iter) (dev : DevPtr) (g : Globals) (h : Devices) :
  worker_count (running b hw its dev g h)
  = to_size_t (count is_acquire (worker_trace (running b hw its dev g h))).
Proof.
  destruct (running_cases hw dev h) as [[Hopen ->] | Hfail].
  - rewrite (running_unfold b its dev g h Hopen). cbv zeta.
    pose proof (running_loop_framecount b dev its (worker_loop_globals b g) 0)
      as Hc.
    pose proof (worker_prologue_calls b dev g) as (P1 & _).
    destruct (running_loop b dev its (worker_loop_globals b g) 0)
      as [[[r g1] n1] out'].
    unfold third_of, trace_of in Hc. cbn [fst snd] in Hc.
    rewrite Z.add_0_l in Hc. specialize (Hc ltac:(unfold SIZE_MAX; lia)).
    destruct r; unfold worker_count, worker_trace; cbn [fst snd];
      rewrite !count_app, P1, ?count_cons, ?count_nil; cbn [is_acquire];
      rewrite Hc; f_equal; lia.
  - rewrite (running_not_started b hw its dev g h Hfail).
    unfold worker_count, worker_trace. cbn [fst snd].
    destruct (enable_rgb g && enable_depth g); reflexivity.
Qed.

(** X17: registration runs once per acquired FrameSet when both streams
    are enabled, and never otherwise. *)
Theorem registration_once_per_acquired_frameset (b : Build) (hw : bool)
  (its : list Iter) (dev : DevPtr) (g : Globals) (h : Devices) :
  count is_apply (worker_trace (running b hw its dev g h))
  = (if enable_rgb g && enable_depth g
     then count is_acquire (worker_trace (running b hw its dev g h))
     else 0).
Proof.
  destruct (running_cases hw dev h) as [[Hopen ->] | Hfail].
  - rewrite (running_unfold b its dev g h Hopen). cbv zeta.
    pose proof (running_loop_calls b dev its (worker_loop_globals b g) 0)
      as Hc.
    pose proof (worker_prologue_calls b dev g) as (P1 & _ & P3 & _).
    destruct (running_loop b dev its (worker_loop_globals b g) 0)
      as [[[r g1] n1] out'].
    cbv zeta in Hc. unfold trace_of in Hc. cbn [snd] in Hc.
    destruct Hc as (_ & _ & C3 & _).
    assert (Hcfg : enable_rgb (worker_loop_globals b g)
                   && enable_depth (worker_loop_globals b g)
                   = enable_rgb g && enable_depth g)
      by (unfold worker_loop_globals;
          destruct (EXAMPLES_WITH_OPENGL_SUPPORT b); reflexivity).
    rewrite Hcfg in C3.
    destruct r; unfold worker_trace; cbn [fst snd];
      rewrite !count_app, P1, P3, C3, ?count_cons, ?count_nil;
      cbn [is_acquire is_apply];
      destruct (enable_rgb g && enable_depth g); lia.
  - rewrite (running_not_started b hw its dev g h Hfail).
    unfold worker_trace. cbn [fst snd].
    destruct (enable_rgb g && enable_depth g); reflexivity.
Qed.

(** X18: a headless worker never drives the viewer.  With the viewer
    disabled, or in a build without the viewer, the trace of [running] has
    no viewer call at all: no initialisation, no frame, no render. *)
Theorem headless_worker_never_drives_the_viewer (b : Build) (hw : bool)
  (its : list Iter) (dev : DevPtr) (g : Globals) (h : Devices) :
  viewer_enabled g = false \/ EXAMPLES_WITH_OPENGL_SUPPORT b = false ->
  count is_viewer_call (worker_trace (running b hw its dev g h)) = 0.
Proof.
  intros Hv.
  destruct (running_cases hw dev h) as [[Hopen ->] | Hfail].
  - rewrite (running_unfold b its dev g h Hopen). cbv zeta.
    pose proof (running_loop_calls b dev its (worker_loop_globals b g) 0)
      as Hc.
    pose proof (worker_prologue_calls b dev g) as (_ & _ & _ & _ & P5).
    destruct (running_loop b dev its (worker_loop_globals b g) 0)
      as [[[r g1] n1] out'].
    cbv zeta in Hc. unfold trace_of in Hc. cbn [snd] in Hc.
    destruct Hc as (_ & _ & _ & C4).
    assert (Hv' : viewer_enabled (worker_loop_globals b g) = false
                  \/ EXAMPLES_WITH_OPENGL_SUPPORT b = false).
    { unfold worker_loop_globals.
      destruct (EXAMPLES_WITH_OPENGL_SUPPORT b); [|right; reflexivity].
      destruct Hv as [Hv | Hv]; [left; exact Hv | discriminate]. }
    destruct r; unfold worker_trace; cbn [fst snd];
      rewrite !count_app, (P5 Hv), (C4 Hv'), ?count_cons, ?count_nil;
      reflexivity.
  - rewrite (running_not_started b hw its dev g h Hfail).
    unfold worker_trace. cbn [fst snd].
    destruct (enable_rgb g && enable_depth g); reflexivity.
Qed.

Lemma headless_worker_never_drives_the_viewer_witness :
  count is_viewer_call
        (worker_trace (running desktop_build true [calm; calm] DevA
                               three_frames_headless both_opened)) = 0.
Proof.
  apply (headless_worker_never_drives_the_viewer desktop_build true
           [calm; calm] DevA three_frames_headless both_opened).
  left. reflexivity.
Defined.

(** X19: closing the viewer's window ends the worker's loop after the
    current frame and sets the shared flag.  In a pass of a worker with the
    viewer, if the frame arrives and [viewer.render()] asks to close, the
    worker writes [true] into [protonect_shutdown], releases the FrameSet,
    and its next loop test fails, unless another context clears the flag in
    between: the remaining passes on offer are not taken. *)
Theorem viewer_close_ends_the_loop (b : Build) (dev : DevPtr) (it : Iter)
  (its : list Iter) (g : Globals) (n : Z) :
  EXAMPLES_WITH_OPENGL_SUPPORT b = true ->
  viewer_enabled g = true ->
  loop_test g n = true ->
  frame_arrives it = true ->
  viewer_closes it = true ->
  after_body it <> Some false ->
  exists out,
    running_loop b dev (it :: its) g n
    = (LoopEnds, set_protonect_shutdown true g, to_size_t (n + 1), out)
    /\ count is_acquire out = 1
    /\ count is_release out = 1.
Proof.
  intros Hb Hv Ht Hf Hc Ha.
  pose proof (loop_body_listener b dev it g n) as Hl.
  cbv zeta in Hl. rewrite Hf in Hl. destruct Hl as (_ & _ & L3 & L4).
  assert (Hbody : exists out,
            loop_body b dev it g n
            = (true, set_protonect_shutdown true g, to_size_t (n + 1), out)).
  { unfold loop_body, viewer_part. rewrite Hb, Hf, Hc.
    destruct g as [sd ve er ed fm pa q1 q2]. cbn in Hv. subst ve.
    destruct it as [fa vc dw dr ab]. cbn in Ha |- *.
    destruct ab as [[|]|]; [|congruence|];
      destruct dw as [[|]|], dr as [[|]|]; cbn;
      try destruct sd; cbn; eexists; reflexivity. }
  destruct Hbody as [out Hbody].
  rewrite Hbody in L3, L4. unfold trace_of in L3, L4. cbn [snd] in L3, L4.
  exists out. cbn [running_loop]. rewrite Ht, Hbody.
  rewrite running_loop_exits_on_shutdown by reflexivity.
  rewrite app_nil_r. repeat split; assumption.
Qed.

Lemma viewer_close_ends_the_loop_witness :
  exists out,
    running_loop desktop_build DevA [viewer_close; calm] launched_globals 0
    = (LoopEnds, set_protonect_shutdown true launched_globals, 1, out)
    /\ count is_acquire out = 1
    /\ count is_release out = 1.
Proof.
  apply (viewer_close_ends_the_loop desktop_build DevA viewer_close [calm]
           launched_globals 0); try reflexivity.
  discriminate.
Defined.

(** ** The session as a whole *)

(** [running] leaves every opened device opened. *)
Lemma running_keeps_open (b : Build) (hw : bool) (its : list Iter)
  (dev p : DevPtr) (g : Globals) (h : Devices) :
  is_open (dev_get h p) = true ->
  is_open (dev_get (worker_devices (running b hw its dev g h)) p) = true.
Proof.
  intros Hp.
  destruct (running_cases hw dev h) as [[Hopen ->] | Hfail].
  - rewrite (running_unfold b its dev g h Hopen). cbv zeta.
    destruct (running_loop b dev its (worker_loop_globals b g) 0)
      as [[[r g1] n1] out'].
    destruct r; unfold worker_devices; cbn [fst snd];
      destruct dev, p, h as [a c]; cbn in *; try reflexivity; exact Hp.
  - rewrite (running_not_started b hw its dev g h Hfail). exact Hp.
Qed.

(** X20: a session that launches its workers ends with both devices
    closed and exit code 0.  Whatever each worker met (a device that does
    not start, a timeout, a frame limit, a close request) and whatever the
    workers left in the globals, the teardown that follows the two joins
    stops and closes both devices and [main] returns 0. *)
Theorem session_ends_with_both_devices_closed (b : Build) (f : Freenect2)
  (argv : list string) (d1 d2 : DevPtr) (g : Globals) (h : Devices)
  (out : list Event) (hwA hwB : bool) (itsA itsB : list Iter) :
  main_setup b f argv = (Started d1 d2, g, h, out) ->
  let rA := running b hwA itsA d1 g h in
  let rB := running b hwB itsB d2 (worker_globals rA) (worker_devices rA) in
  main_teardown d1 d2 (worker_devices rB)
  = (0, both_closed,
     [DevStop DevA; DevStop DevB; DevClose DevA; DevClose DevB]).
Proof.
  intros H rA rB.
  destruct (main_setup_started b f argv d1 d2 g h out H)
    as ((-> & -> & -> & _) & _).
  apply main_teardown_open; subst rA rB;
    apply running_keeps_open; apply running_keeps_open; reflexivity.
Qed.

Lemma session_ends_with_both_devices_closed_witness :
  main_teardown DevA DevB
    (worker_devices
       (running desktop_build false [calm] DevB
          (worker_globals (running desktop_build true [calm; no_frame] DevA
                                   launched_globals both_opened))
          (worker_devices (running desktop_build true [calm; no_frame] DevA
                                   launched_globals both_opened))))
  = (0, both_closed,
     [DevStop DevA; DevStop DevB; DevClose DevA; DevClose DevB]).
Proof.
  apply (session_ends_with_both_devices_closed desktop_build three_sensors
           ["Protonect"] DevA DevB launched_globals both_opened
           (trace_of (main_setup desktop_build three_sensors ["Protonect"]))
           true false [calm; no_frame] [calm]).
  reflexivity.
Defined.

(** ** The registration object *)

Lemma loop_body_registration (b : Build) (dev : DevPtr) (it : Iter)
  (g : Globals) (framecount : Z) :
  count is_delete (trace_of (loop_body b dev it g framecount)) = 0
  /\ count is_new_registration (trace_of (loop_body b dev it g framecount))
     = 0.
Proof.
  unfold loop_body, viewer_part, trace_of.
  destruct (frame_arrives it); cbn [negb]; cbv iota;
    [|split; reflexivity].
  split_ifs; split; reflexivity.
Qed.

Lemma running_loop_registration (b : Build) (dev : DevPtr) (its : list Iter) :
  forall (g : Globals) (framecount : Z),
    count is_delete (trace_of (running_loop b dev its g framecount)) = 0
    /\ count is_new_registration
             (trace_of (running_loop b dev its g framecount)) = 0.
Proof.
  induction its as [|it its IH]; intros g n; cbn [running_loop].
  - destruct (loop_test g n); split; reflexivity.
  - destruct (loop_test g n); [|split; reflexivity].
    pose proof (loop_body_registration b dev it g n) as [H1 H2].
    destruct (loop_body b dev it g n) as [[[cont g1] n1] out].
    unfold trace_of in *. cbn [snd] in *.
    destruct cont; [|split; assumption].
    specialize (IH g1 n1).
    destruct (running_loop b dev its g1 n1) as [[[r g2] n2] out'].
    cbn [snd] in *. destruct IH as [I1 I2].
    rewrite !count_app. split; lia.
Qed.

(** X21: the registration object is deleted only when the loop is left by
    its test.  [running] creates one registration object whenever its
    device starts, and deletes it when it falls off the end of the loop;
    when it returns because a wait timed out, the object is not deleted. *)
Theorem registration_deleted_only_on_normal_end (b : Build) (hw : bool)
  (its : list Iter) (dev : DevPtr) (g : Globals) (h : Devices) :
  let r := running b hw its dev g h in
  count is_new_registration (worker_trace r)
  = (match worker_exit r with StartFailed => 0 | _ => 1 end)
  /\ count is_delete (worker_trace r)
     = (match worker_exit r with Finished => 1 | _ => 0 end).
Proof.
  cbv zeta.
  destruct (running_cases hw dev h) as [[Hopen ->] | Hfail].
  - rewrite (running_unfold b its dev g h Hopen). cbv zeta.
    pose proof (running_loop_registration b dev its
                  (worker_loop_globals b g) 0) as [H1 H2].
    destruct (running_loop b dev its (worker_loop_globals b g) 0)
      as [[[r g1] n1] out'].
    unfold trace_of in *. cbn [snd] in *.
    assert (P1 : count is_delete (worker_prologue b dev g) = 0
                 /\ count is_new_registration (worker_prologue b dev g) = 1).
    { unfold worker_prologue.
      destruct (enable_rgb g && enable_depth g),
        (EXAMPLES_WITH_OPENGL_SUPPORT b && viewer_enabled g);
        split; reflexivity. }
    destruct P1 as [P1 P2].
    destruct r; unfold worker_trace, worker_exit; cbn [fst snd];
      rewrite !count_app, P1, P2, H1, H2, ?count_cons, ?count_nil;
      split; reflexivity.
  - rewrite (running_not_started b hw its dev g h Hfail).
    unfold worker_trace, worker_exit. cbn [fst snd].
    destruct (enable_rgb g && enable_depth g); split; reflexivity.
Qed.
